(** * The ExecuTorch Android JNI layer (extension/android/jni/jni_layer.cpp)

    A shallow embedding of the value codec ([JEValue], [TensorHybrid]), the
    method invoker ([ExecuTorchJni]), the callback relay
    ([ExecuTorchLlamaCallbackJni]), the generation wrapper
    ([ExecuTorchLlamaJni]) and the load-time registration ([JNI_OnLoad]),
    followed by the properties established about them.

    Conventions.
    - [jint], [jlong], [int64_t] and [int] values are integers of [Z]; every
      narrowing the C++ code performs is written out with [wrap32]/[wrap64].
    - [double] and [jfloat] values are IEEE 754 binary64 / binary32 numbers,
      represented by [spec_float] with the operations of [SpecFloat]
      (round to nearest, ties to even).
    - A call that may leave through [facebook::jni::throwNewJavaException]
      is a computation in the [Jni] monad: it either returns a value or
      throws a [JavaException] holding the exception class, the format string
      and the format arguments of the call.
    - What the file obtains from headers or Java classes that are not part of
      it (the dtype tables, the [Module] and [Runner] of the runtime, the Java
      [Tensor] factory) is an interface: the classes [JniConstants],
      [JavaSide] and [NativeRuntime]. *)

From Stdlib Require Import ZArith List String Bool Lia.
From Stdlib Require Import Floats.SpecFloat.
Import ListNotations.

Local Open Scope string_scope.
Local Open Scope list_scope.
Local Open Scope Z_scope.

(** ** Fixed-width integers *)

Module FixedWidth.

(** Two's complement reduction of [z] to [w] bits. *)
Definition wrap (w : Z) (z : Z) : Z :=
  (z + 2 ^ (w - 1)) mod 2 ^ w - 2 ^ (w - 1).

(** [int], [jint], [int32_t], [exec_aten::SizesType]. *)
Definition wrap32 (z : Z) : Z := wrap 32 z.

(** [jlong], [int64_t], [long] (LP64). *)
Definition wrap64 (z : Z) : Z := wrap 64 z.

Definition int32_min : Z := - 2 ^ 31.
Definition int32_max : Z := 2 ^ 31 - 1.
Definition int64_min : Z := - 2 ^ 63.
Definition int64_max : Z := 2 ^ 63 - 1.

End FixedWidth.
Export FixedWidth.

(** ** IEEE 754 numbers *)

Module Ieee.

Definition double : Type := spec_float.
Definition jfloat : Type := spec_float.

Definition prec64 : Z := 53.
Definition emax64 : Z := 1024.
Definition prec32 : Z := 24.
Definition emax32 : Z := 128.

(** Integer to [double] conversion ([(double) z], or the usual arithmetic
    conversion of an integer operand of a [double] operation). *)
Definition double_of_Z (z : Z) : double :=
  binary_normalize prec64 emax64 z 0 false.

Definition double_div (x y : double) : double := SFdiv prec64 emax64 x y.
Definition double_mul (x y : double) : double := SFmul prec64 emax64 x y.

(** [double] to [float] conversion (the initialisation [float tps = ...]). *)
Definition float_of_double (d : double) : jfloat :=
  match d with
  | S754_finite s m e => binary_round prec32 emax32 s m e
  | _ => d
  end.

Definition is_finite (x : spec_float) : bool :=
  match x with
  | S754_zero _ | S754_finite _ _ _ => true
  | S754_infinity _ | S754_nan => false
  end.

(** The binary32 number 20.0, that is [10485760 * 2^-19]. *)
Definition float_20 : jfloat := S754_finite false 10485760 (-19).

End Ieee.
Export Ieee.

(** ** Java exceptions and the [Jni] monad *)

Inductive FmtArg : Type :=
| ArgInt (z : Z)
| ArgStr (s : string).

Record JavaException : Type := mkJavaException {
  exn_class : string;
  exn_format : string;
  exn_args : list FmtArg
}.

Inductive Jni (A : Type) : Type :=
| Return (a : A)
| Throws (e : JavaException).

Arguments Return {A} a.
Arguments Throws {A} e.

Definition bind {A B : Type} (c : Jni A) (k : A -> Jni B) : Jni B :=
  match c with
  | Return a => k a
  | Throws e => Throws e
  end.

Declare Scope jni_scope.
Delimit Scope jni_scope with jni.
Notation "x <- c ;; k" := (bind c (fun x => k))
  (at level 61, c at next level, right associativity) : jni_scope.
Local Open Scope jni_scope.

Definition gJavaLangIllegalArgumentException : string :=
  "java/lang/IllegalArgumentException".

Definition throwNewJavaException {A : Type}
    (cls fmt : string) (args : list FmtArg) : Jni A :=
  Throws (mkJavaException cls fmt args).

Definition returns {A : Type} (c : Jni A) : bool :=
  match c with
  | Return _ => true
  | Throws _ => false
  end.

(** ** Native values *)

(** [ScalarType] is an enumeration over [int8_t]; its members are not named
    in this file, only looked up in the dtype tables. *)
Definition ScalarType : Type := Z.

(** Modelled from the spec: the TensorDescriptor of the data model, that is
    what this file reads from an [exec_aten::Tensor] (declared in the
    runtime headers): [scalar_type()], [sizes()] and [data_ptr()]. *)
Record Tensor : Type := mkTensor {
  scalar_type : ScalarType;
  sizes : list Z;
  data_ptr : Z
}.

(** Modelled from the spec: the non-owning view [ManagedTensor(data, sizes,
    dtype)] of runner_util/managed_tensor.h. *)
Record ManagedTensor : Type := mkManagedTensor {
  mt_data : Z;
  mt_sizes : list Z;
  mt_dtype : ScalarType
}.

(** Modelled from the spec: [ManagedTensor::get_aliasing_tensor], a tensor
    aliasing the same buffer, with the same sizes and scalar type. *)
Definition get_aliasing_tensor (mt : ManagedTensor) : Tensor :=
  mkTensor (mt_dtype mt) (mt_sizes mt) (mt_data mt).

(** Modelled from the spec: runtime/core/tag.h is not part of this file. The
    five kinds the codec recognises carry the codes 1 to 5 of the spec; the
    remaining members are the other kinds of tagged value of the runtime. *)
Inductive Tag : Type :=
| Tag_None
| Tag_Tensor
| Tag_String
| Tag_Double
| Tag_Int
| Tag_Bool
| Tag_ListBool
| Tag_ListDouble
| Tag_ListInt
| Tag_ListTensor
| Tag_ListScalar
| Tag_ListOptionalTensor.

Definition tag_code (t : Tag) : Z :=
  match t with
  | Tag_None => 0
  | Tag_Tensor => 1
  | Tag_String => 2
  | Tag_Double => 3
  | Tag_Int => 4
  | Tag_Bool => 5
  | Tag_ListBool => 6
  | Tag_ListDouble => 7
  | Tag_ListInt => 8
  | Tag_ListTensor => 9
  | Tag_ListScalar => 10
  | Tag_ListOptionalTensor => 11
  end.

(** Modelled from the spec: the native TaggedValue [EValue], a tagged union
    in which exactly one payload is valid per tag; one constructor per tag,
    holding that payload. *)
Inductive EValue : Type :=
| EValue_None
| EValue_Tensor (t : Tensor)
| EValue_String (s : string)
| EValue_Double (d : double)
| EValue_Int (i : Z)
| EValue_Bool (b : bool)
| EValue_ListBool (l : list bool)
| EValue_ListDouble (l : list double)
| EValue_ListInt (l : list Z)
| EValue_ListTensor (l : list Tensor)
| EValue_ListScalar
| EValue_ListOptionalTensor (l : list (option Tensor)).

Definition tag (evalue : EValue) : Tag :=
  match evalue with
  | EValue_None => Tag_None
  | EValue_Tensor _ => Tag_Tensor
  | EValue_String _ => Tag_String
  | EValue_Double _ => Tag_Double
  | EValue_Int _ => Tag_Int
  | EValue_Bool _ => Tag_Bool
  | EValue_ListBool _ => Tag_ListBool
  | EValue_ListDouble _ => Tag_ListDouble
  | EValue_ListInt _ => Tag_ListInt
  | EValue_ListTensor _ => Tag_ListTensor
  | EValue_ListScalar => Tag_ListScalar
  | EValue_ListOptionalTensor _ => Tag_ListOptionalTensor
  end.

(** Modelled from the spec: [Result<T>] of the runtime, the values of a
    successful call or the status code ([error_code_t]) of a failed one;
    [ok()] holds of the former only. *)
Inductive Result (T : Type) : Type :=
| Result_value (v : T)
| Result_error (e : Z).

Arguments Result_value {T} v.
Arguments Result_error {T} e.

(** Modelled from the spec: [Runner::Stats] (llama2/runner/runner.h), the
    integer fields [onStats] reads: two time stamps in milliseconds, the
    count of generated tokens and the scaling constant. *)
Record Stats : Type := mkStats {
  prompt_eval_end_ms : Z;
  inference_end_ms : Z;
  num_generated_tokens : Z;
  SCALING_FACTOR_UNITS_PER_SECOND : Z
}.

(** ** Managed (Java) objects *)

(** Modelled from the spec: a [java.nio.Buffer] as seen through
    [GetDirectBufferAddress] and [GetDirectBufferCapacity]. *)
Record JBuffer : Type := mkJBuffer {
  buffer_address : Z;
  buffer_capacity : Z
}.

(** Modelled from the spec: the managed tensor
    [org.pytorch.executorch.Tensor], a dtype code, a shape and a buffer, read
    through [dtypeJniCode()], the [shape] field and [getRawDataBuffer()]. *)
Record JTensor : Type := mkJTensor {
  dtypeJniCode : Z;
  shape : list Z;
  getRawDataBuffer : JBuffer
}.

Inductive JObject : Type :=
| JNull
| JTensorObject (t : JTensor)
| JStringObject (s : string)
| JDoubleObject (d : double)
| JLongObject (l : Z)
| JBooleanObject (b : bool).

(** Modelled from the spec: the managed TaggedValue
    [org.pytorch.executorch.EValue], a plain object holding the [mTypeCode]
    field and the payload. Nothing ties the two together: the native code
    inspects the type code only. *)
Record JEValueObject : Type := mkJEValue {
  mTypeCode : Z;
  mData : JObject
}.

(** ** Interfaces to what lies outside the file *)

(** jni_layer_constants.h: the two dtype tables, as lookups
    ([None] when [count(key) == 0]). *)
Class JniConstants : Type := {
  scalar_type_to_java_dtype : ScalarType -> option Z;
  java_dtype_to_scalar_type : Z -> option ScalarType
}.

(** The Java class [Tensor]: its static factory [nativeNewTensor(data, shape,
    dtype, hybridData)]. *)
Class JavaSide : Type := {
  nativeNewTensor : JBuffer -> list Z -> Z -> JTensor
}.

(** What the native runner reports through the two callbacks handed to
    [Runner::generate], in the order of the calls. *)
Inductive RunnerEvent : Type :=
| TokenEvent (result : string)
| StatsEvent (result : Stats).

(** The native runtime: [Module] (extension/module), [Runner]
    (llama2/runner) and [Tensor::nbytes]. Each operation takes the object
    and returns it updated, with the [Error] or [Result] of the call. *)
Class NativeRuntime : Type := {
  ETModule : Type;
  Runner : Type;
  Tensor_nbytes : Tensor -> Z;
  Module_execute :
    ETModule -> string -> list EValue -> ETModule * Result (list EValue);
  Module_load_method : ETModule -> string -> ETModule * Z;
  Runner_generate :
    Runner -> string -> Z -> Runner * list RunnerEvent * Z;
  Runner_stop : Runner -> Runner;
  Runner_load : Runner -> Runner * Z
}.

(** ** class TensorHybrid *)

Module TensorHybrid.
Section TensorHybrid.
Context `{JniConstants} `{JavaSide} `{NativeRuntime}.

(** [JByteBuffer::wrapBytes(data, size)]: a direct buffer over [size] bytes
    at [data]. *)
Definition wrapBytes (data size : Z) : JBuffer := mkJBuffer data size.

Definition newJTensorFromTensor (tensor : Tensor) : Jni JTensor :=
  let scalarType := scalar_type tensor in
  match scalar_type_to_java_dtype scalarType with
  | None =>
      throwNewJavaException gJavaLangIllegalArgumentException
        "exec_aten::Tensor scalar type %d is not supported on java side"
        [ArgInt scalarType]
  | Some jdtype =>
      let tensor_shape_vec := sizes tensor in
      let jTensorShape := tensor_shape_vec in
      let jTensorBuffer := wrapBytes (data_ptr tensor) (Tensor_nbytes tensor) in
      Return (nativeNewTensor jTensorBuffer jTensorShape jdtype)
  end.

End TensorHybrid.
End TensorHybrid.

(** ** class JEValue *)

Module JEValue.

Definition kTypeCodeTensor : Z := 1.
Definition kTypeCodeString : Z := 2.
Definition kTypeCodeDouble : Z := 3.
Definition kTypeCodeInt : Z := 4.
Definition kTypeCodeBool : Z := 5.

(** Modelled from the spec: the static factories [EValue.from(...)] of the
    Java class, one per payload type; each yields an object holding the type
    code of the kind and the payload. *)
Definition from_Tensor (t : JTensor) : JEValueObject :=
  mkJEValue kTypeCodeTensor (JTensorObject t).

Definition from_long (l : Z) : JEValueObject :=
  mkJEValue kTypeCodeInt (JLongObject l).

Definition from_double (d : double) : JEValueObject :=
  mkJEValue kTypeCodeDouble (JDoubleObject d).

Definition from_boolean (b : bool) : JEValueObject :=
  mkJEValue kTypeCodeBool (JBooleanObject b).

Definition from_String (s : string) : JEValueObject :=
  mkJEValue kTypeCodeString (JStringObject s).

(** Modelled from the spec: the accessor [EValue.toTensor()] of the Java
    class; it yields the tensor payload, and throws when the object holds
    none. *)
Definition toTensor (jevalue : JEValueObject) : Jni JTensor :=
  match mData jevalue with
  | JTensorObject t => Return t
  | _ => throwNewJavaException "java/lang/ClassCastException" EmptyString []
  end.

Section JEValue.
Context `{JniConstants} `{JavaSide} `{NativeRuntime}.

Definition newJEValueFromEValue (evalue : EValue) : Jni JEValueObject :=
  match evalue with
  | EValue_Tensor t => (* evalue.isTensor() *)
      jtensor <- TensorHybrid.newJTensorFromTensor t ;;
      Return (from_Tensor jtensor)
  | EValue_Int i => (* evalue.isInt() *)
      Return (from_long i)
  | EValue_Double d => (* evalue.isDouble() *)
      Return (from_double d)
  | EValue_Bool b => (* evalue.isBool() *)
      Return (from_boolean b)
  | EValue_String s => (* evalue.isString() *)
      Return (from_String s)
  | _ =>
      throwNewJavaException gJavaLangIllegalArgumentException
        "Unsupported EValue type: %d" [ArgInt (tag_code (tag evalue))]
  end.

(** The element count of the second loop: [numel] is an [int], each factor
    a [jlong]; the product is formed in 64 bits and stored back in 32. *)
Definition numel_step (numel : Z) (dim : Z) : Z :=
  wrap32 (wrap64 (numel * dim)).

Definition numel_of (shapeArr : list Z) : Z :=
  fold_left numel_step (rev shapeArr) 1.

Definition JEValueToTensorImpl (jevalue : JEValueObject) : Jni ManagedTensor :=
  let typeCode := mTypeCode jevalue in
  if kTypeCodeTensor =? typeCode then
    jtensor <- toTensor jevalue ;;
    let jdtype := dtypeJniCode jtensor in
    let jshape := shape jtensor in
    let jbuffer := getRawDataBuffer jtensor in
    let shapeArr := jshape in
    let shape_vec := map wrap32 shapeArr in
    let numel := numel_of shapeArr in
    match java_dtype_to_scalar_type jdtype with
    | None =>
        throwNewJavaException gJavaLangIllegalArgumentException
          "Unknown Tensor jdtype %d" [ArgInt jdtype]
    | Some scalar_type =>
        let dataCapacity := buffer_capacity jbuffer in
        if negb (dataCapacity =? numel) then
          throwNewJavaException gJavaLangIllegalArgumentException
            "Tensor dimensions(elements number:%d inconsistent with buffer capacity(%d)"
            [ArgInt numel; ArgInt dataCapacity]
        else
          Return (mkManagedTensor (buffer_address jbuffer) shape_vec scalar_type)
    end
  else
    throwNewJavaException gJavaLangIllegalArgumentException
      "Unknown EValue typeCode %d" [ArgInt typeCode].

End JEValue.
End JEValue.

(** ** Registration of native methods *)

(** The C++ member functions that are handed to [makeNativeMethod]. *)
Inductive NativeFunction : Type :=
| ExecuTorchJni_initHybrid
| ExecuTorchJni_forward
| ExecuTorchJni_execute
| ExecuTorchJni_load_method
| ExecuTorchLlamaJni_initHybrid
| ExecuTorchLlamaJni_generate
| ExecuTorchLlamaJni_stop
| ExecuTorchLlamaJni_load.

(** One row of the method table of the Java runtime: the class descriptor,
    the Java method name and the native function bound to it. *)
Record NativeMethod : Type := mkNativeMethod {
  nm_class : string;
  nm_name : string;
  nm_function : NativeFunction
}.

Definition MethodTable : Type := list NativeMethod.

Definition makeNativeMethod (name : string) (f : NativeFunction)
  : string * NativeFunction := (name, f).

(** [HybridClass<T>::registerHybrid(methods)]: binds every listed method of
    the class [kJavaDescriptor]. *)
Definition registerHybrid (kJavaDescriptor : string)
    (methods : list (string * NativeFunction)) (table : MethodTable)
  : MethodTable :=
  table ++ map (fun m => mkNativeMethod kJavaDescriptor (fst m) (snd m)) methods.

Definition registered (name : string) (table : MethodTable) : bool :=
  existsb (fun m => String.eqb (nm_name m) name) table.

(** ** class ExecuTorchJni *)

Module ExecuTorchJni.

Definition kJavaDescriptor : string := "Lorg/pytorch/executorch/NativePeer;".

Definition registerNatives (table : MethodTable) : MethodTable :=
  registerHybrid kJavaDescriptor
    [ makeNativeMethod "initHybrid" ExecuTorchJni_initHybrid;
      makeNativeMethod "forward" ExecuTorchJni_forward;
      makeNativeMethod "execute" ExecuTorchJni_execute;
      makeNativeMethod "loadMethod" ExecuTorchJni_load_method ]
    table.

Section ExecuTorchJni.
Context `{JniConstants} `{JavaSide} `{NativeRuntime}.

(** The vectors [evalues] and [managed_tensors] of [execute_method]. *)
Definition Inputs : Type := (list EValue * list ManagedTensor)%type.

(** One turn of the first loop of [execute_method]. *)
Definition input_loop_body (st : Inputs) (jevalue : JEValueObject)
  : Jni Inputs :=
  let '(evalues, managed_tensors) := st in
  let typeCode := mTypeCode jevalue in
  if typeCode =? JEValue.kTypeCodeTensor then
    mt <- JEValue.JEValueToTensorImpl jevalue ;;
    let managed_tensors := managed_tensors ++ [mt] in
    Return
      (evalues ++ [EValue_Tensor (get_aliasing_tensor (last managed_tensors mt))],
       managed_tensors)
  else if typeCode =? JEValue.kTypeCodeInt then
    (* int64_t value = jevalue->getFieldValue(typeCodeField); *)
    let value := mTypeCode jevalue in
    Return (evalues ++ [EValue_Int value], managed_tensors)
  else if typeCode =? JEValue.kTypeCodeDouble then
    (* double value = jevalue->getFieldValue(typeCodeField); *)
    let value := double_of_Z (mTypeCode jevalue) in
    Return (evalues ++ [EValue_Double value], managed_tensors)
  else if typeCode =? JEValue.kTypeCodeBool then
    (* bool value = jevalue->getFieldValue(typeCodeField); *)
    let value := negb (mTypeCode jevalue =? 0) in
    Return (evalues ++ [EValue_Bool value], managed_tensors)
  else
    Return (evalues, managed_tensors).

(** The first loop: [for (int i = 0; i < jinputs->size(); i++)]. *)
Fixpoint input_loop (jinputs : list JEValueObject) (st : Inputs)
  : Jni Inputs :=
  match jinputs with
  | [] => Return st
  | jevalue :: rest =>
      st' <- input_loop_body st jevalue ;;
      input_loop rest st'
  end.

(** The second loop: every returned value is encoded and stored at its
    index of [jresult]. *)
Fixpoint output_loop (values : list EValue) : Jni (list JEValueObject) :=
  match values with
  | [] => Return []
  | evalue :: rest =>
      jevalue <- JEValue.newJEValueFromEValue evalue ;;
      jrest <- output_loop rest ;;
      Return (jevalue :: jrest)
  end.

(** The format of the failure message ends in the macro [PRIx32], written
    here as the conversion [x] it stands for. *)
Definition execute_method (module_ : ETModule) (method : string)
    (jinputs : list JEValueObject) : ETModule * Jni (list JEValueObject) :=
  match input_loop jinputs ([], []) with
  | Throws e => (module_, Throws e)
  | Return (evalues, managed_tensors) =>
      let '(module_, result) := Module_execute module_ method evalues in
      match result with
      | Result_error error =>
          (module_,
           throwNewJavaException "java/lang/Exception"
             "Execution of method %s failed with status 0x%x"
             [ArgStr method; ArgInt error])
      | Result_value values => (module_, output_loop values)
      end
  end.

Definition forward (module_ : ETModule) (jinputs : list JEValueObject)
  : ETModule * Jni (list JEValueObject) :=
  execute_method module_ "forward" jinputs.

Definition execute (module_ : ETModule) (methodName : string)
    (jinputs : list JEValueObject) : ETModule * Jni (list JEValueObject) :=
  execute_method module_ methodName jinputs.

Definition load_method (module_ : ETModule) (methodName : string)
  : ETModule * Z :=
  let '(module_, error) := Module_load_method module_ methodName in
  (module_, wrap32 error).

End ExecuTorchJni.
End ExecuTorchJni.

(** ** class ExecuTorchLlamaCallbackJni *)

(** What the Java listener [LlamaCallback] receives. *)
Inductive ListenerCall : Type :=
| Call_onResult (s : string)
| Call_onStats (tps : jfloat).

Module ExecuTorchLlamaCallbackJni.

Definition kJavaDescriptor : string := "Lorg/pytorch/executorch/LlamaCallback;".

Definition onResult (result : string) (listener : list ListenerCall)
  : list ListenerCall :=
  listener ++ [Call_onResult result].

Definition onStats (result : Stats) (listener : list ListenerCall)
  : list ListenerCall :=
  let eval_time :=
    double_of_Z (wrap64 (inference_end_ms result - prompt_eval_end_ms result)) in
  let tps :=
    float_of_double
      (double_mul
         (double_div (double_of_Z (num_generated_tokens result)) eval_time)
         (double_of_Z (SCALING_FACTOR_UNITS_PER_SECOND result))) in
  listener ++ [Call_onStats tps].

End ExecuTorchLlamaCallbackJni.

(** ** class ExecuTorchLlamaJni *)

Module ExecuTorchLlamaJni.

Definition kJavaDescriptor : string := "Lorg/pytorch/executorch/LlamaModule;".

Definition registerNatives (table : MethodTable) : MethodTable :=
  registerHybrid kJavaDescriptor
    [ makeNativeMethod "initHybrid" ExecuTorchLlamaJni_initHybrid;
      makeNativeMethod "generate" ExecuTorchLlamaJni_generate;
      makeNativeMethod "stop" ExecuTorchLlamaJni_stop;
      makeNativeMethod "load" ExecuTorchLlamaJni_load ]
    table.

(** The constructor, compiled with ET_USE_THREADPOOL. One thread is kept
    for the main thread: [uint32_t num_performant_cores =
    get_num_performant_cores() - 1], an unsigned 32-bit value. *)
Definition num_performant_cores (get_num_performant_cores : Z) : Z :=
  (get_num_performant_cores - 1) mod 2 ^ 32.

(** The size of the threadpool once the constructor has run, [threadpool]
    being its size before: it is reset when [num_performant_cores > 0]. *)
Definition constructor_threadpool (get_num_performant_cores : Z)
    (threadpool : Z) : Z :=
  let num_performant_cores := num_performant_cores get_num_performant_cores in
  if 0 <? num_performant_cores then num_performant_cores else threadpool.

Section ExecuTorchLlamaJni.
Context `{NativeRuntime}.

(** The two lambdas handed to [runner_->generate], applied to what the
    runner reports. *)
Definition relay (listener : list ListenerCall) (ev : RunnerEvent)
  : list ListenerCall :=
  match ev with
  | TokenEvent result => ExecuTorchLlamaCallbackJni.onResult result listener
  | StatsEvent result => ExecuTorchLlamaCallbackJni.onStats result listener
  end.

Definition generate (runner_ : Runner) (prompt : string)
    (callback : list ListenerCall) : Runner * list ListenerCall * Z :=
  let '(runner_, events, _) := Runner_generate runner_ prompt 128 in
  (runner_, fold_left relay events callback, 0).

Definition stop (runner_ : Runner) : Runner := Runner_stop runner_.

Definition load (runner_ : Runner) : Runner * Z :=
  let '(runner_, error) := Runner_load runner_ in
  (runner_, wrap32 error).

End ExecuTorchLlamaJni.
End ExecuTorchLlamaJni.

(** ** Library load *)

(** The global [jni_init_function_registry] and the method table of the
    Java runtime. *)
Record Process : Type := mkProcess {
  jni_init_function_registry : list (MethodTable -> MethodTable);
  method_table : MethodTable
}.

Definition register_jni_init_function (f : MethodTable -> MethodTable)
    (p : Process) : Process * Z :=
  (mkProcess (jni_init_function_registry p ++ [f]) (method_table p), 0).

(** The process before any static initialiser has run. *)
Definition process_start : Process := mkProcess [] [].

(** Static initialisation: the one initialiser of the file,
    [register_jni_init_function_success]. *)
Definition static_initialization (p : Process) : Process :=
  fst (register_jni_init_function ExecuTorchJni.registerNatives p).

Definition JNI_VERSION_1_6 : Z := 65542.

(** [facebook::jni::initialize(vm, init_fn)]: runs [init_fn] and answers
    the JNI version. *)
Definition initialize (init_fn : MethodTable -> MethodTable)
    (table : MethodTable) : MethodTable * Z :=
  (init_fn table, JNI_VERSION_1_6).

Definition JNI_OnLoad (p : Process) : Process * Z :=
  let '(table, version) :=
    initialize
      (fun table =>
         fold_left (fun table f => f table) (jni_init_function_registry p) table)
      (method_table p) in
  (mkProcess (jni_init_function_registry p) table, version).

(** The process once the library is loaded. *)
Definition process_loaded : Process :=
  fst (JNI_OnLoad (static_initialization process_start)).

(** ** A sample environment

    An instance of each interface, on which the closed examples below are
    evaluated: two dtype codes, a module that knows the method "forward"
    (answering its inputs) and no other, and a runner that reports two
    tokens and its statistics, then fails. *)

Module Sample.

Definition lookup {V : Type} (table : list (Z * V)) (key : Z) : option V :=
  option_map snd (find (fun kv => fst kv =? key) table).

Definition constants : JniConstants := {|
  scalar_type_to_java_dtype := lookup [(3, 3); (6, 6)];
  java_dtype_to_scalar_type := lookup [(3, 3); (6, 6)]
|}.

Definition java : JavaSide := {|
  nativeNewTensor := fun data shape dtype => mkJTensor dtype shape data
|}.

Definition stats : Stats := mkStats 1000 3500 50 1000.

Definition runtime : NativeRuntime := {|
  ETModule := unit;
  Runner := unit;
  Tensor_nbytes := fun t => fold_right Z.mul 1 (sizes t);
  Module_execute := fun m method evalues =>
    if String.eqb method "forward" then (m, Result_value evalues)
    else (m, Result_error 18);
  Module_load_method := fun m method =>
    if String.eqb method "forward" then (m, 0) else (m, 18);
  Runner_generate := fun r prompt seq_len =>
    (r, [TokenEvent "Hello"; TokenEvent " world"; StatsEvent stats], 18);
  Runner_stop := fun r => r;
  Runner_load := fun r => (r, 0)
|}.

(** A runtime whose module answers, to every method, an integer, a value
    of tag None and another integer; its runner loads with status 18. *)
Definition runtime_with_none : NativeRuntime := {|
  ETModule := unit;
  Runner := unit;
  Tensor_nbytes := fun t => fold_right Z.mul 1 (sizes t);
  Module_execute := fun m method evalues =>
    (m, Result_value [EValue_Int 1; EValue_None; EValue_Int 2]);
  Module_load_method := fun m method => (m, 18);
  Runner_generate := fun r prompt seq_len => (r, [], 0);
  Runner_stop := fun r => r;
  Runner_load := fun r => (r, 18)
|}.

(** A tensor of dtype code 99, which the sample table does not hold, with
    shape [2] over a buffer of capacity 3. *)
Definition jtensor_unknown_dtype : JTensor :=
  mkJTensor 99 [2] (mkJBuffer 4096 3).

(** A tensor of dtype code 6 with shape [2] over a buffer of capacity 3. *)
Definition jtensor_short_shape : JTensor :=
  mkJTensor 6 [2] (mkJBuffer 4096 3).

(** A tensor of dtype code 6 whose shape [65536; 65536] declares 2^32
    elements, over a buffer of capacity 0. *)
Definition jtensor_wide_shape : JTensor :=
  mkJTensor 6 [65536; 65536] (mkJBuffer 4096 0).

(** A managed long 42, as [EValue.from(42L)] builds it. *)
Definition jevalue_42 : JEValueObject := JEValue.from_long 42.

(** A managed string and a managed object of an unknown type code. *)
Definition jevalue_string : JEValueObject := JEValue.from_String "prompt".
Definition jevalue_code_9 : JEValueObject := mkJEValue 9 JNull.

(** A managed tensor of dtype code 6 with shape [2; 3] over six elements. *)
Definition jevalue_tensor : JEValueObject :=
  JEValue.from_Tensor (mkJTensor 6 [2; 3] (mkJBuffer 4096 6)).

End Sample.

(** ** Notions of the specification *)

(** The element count a shape declares: the product of its dimension sizes,
    1 for rank zero. *)
Definition element_count (shape : list Z) : Z := fold_right Z.mul 1 shape.

(** The type codes of the five kinds of tagged value. *)
Definition recognized (typeCode : Z) : bool :=
  existsb (Z.eqb typeCode)
    [JEValue.kTypeCodeTensor; JEValue.kTypeCodeString; JEValue.kTypeCodeDouble;
     JEValue.kTypeCodeInt; JEValue.kTypeCodeBool].

(** The tags native to managed conversion has a case for. *)
Definition supported (t : Tag) : bool :=
  match t with
  | Tag_Tensor | Tag_Int | Tag_Double | Tag_Bool | Tag_String => true
  | _ => false
  end.

(** Native to managed, then managed to native as [execute_method] does it
    for an input: the native values the round trip of [evalue] yields. *)
Definition decode_encode `{JniConstants} `{JavaSide} `{NativeRuntime}
    (evalue : EValue) : Jni (list EValue) :=
  jevalue <- JEValue.newJEValueFromEValue evalue ;;
  st <- ExecuTorchJni.input_loop [jevalue] ([], []) ;;
  Return (fst st).

(** Managed to native as [execute_method] does it, then native to managed
    again. *)
Definition encode_decode `{JniConstants} `{JavaSide} `{NativeRuntime}
    (jevalue : JEValueObject) : Jni (list JEValueObject) :=
  st <- ExecuTorchJni.input_loop [jevalue] ([], []) ;;
  ExecuTorchJni.output_loop (fst st).

(** Appending what a turn of the first loop of [execute_method] adds to the
    vectors [st] holds. *)
Definition extend (st : ExecuTorchJni.Inputs) (added : ExecuTorchJni.Inputs)
  : Jni ExecuTorchJni.Inputs :=
  Return (fst st ++ fst added, snd st ++ snd added).






(** The native tensors among a vector of values, in order. *)
Definition tensors_of (evalues : list EValue) : list Tensor :=
  flat_map
    (fun evalue => match evalue with EValue_Tensor t => [t] | _ => [] end)
    evalues.

(** The type codes the first loop of [execute_method] has a branch for. *)
Definition converted (typeCode : Z) : bool :=
  existsb (Z.eqb typeCode)
    [JEValue.kTypeCodeTensor; JEValue.kTypeCodeInt; JEValue.kTypeCodeDouble;
     JEValue.kTypeCodeBool].

Definition is_tensor_input (jevalue : JEValueObject) : bool :=
  mTypeCode jevalue =? JEValue.kTypeCodeTensor.

Definition is_converted_input (jevalue : JEValueObject) : bool :=
  converted (mTypeCode jevalue).

(** The texts the runner reports, and the texts and the rates a listener
    has received, each in order. *)
Definition tokens_of (events : list RunnerEvent) : list string :=
  flat_map
    (fun ev => match ev with TokenEvent result => [result] | _ => [] end)
    events.

Definition stats_of (events : list RunnerEvent) : list Stats :=
  flat_map
    (fun ev => match ev with StatsEvent result => [result] | _ => [] end)
    events.

Definition results_received (listener : list ListenerCall) : list string :=
  flat_map
    (fun call => match call with Call_onResult s => [s] | _ => [] end)
    listener.

Definition rates_received (listener : list ListenerCall) : list jfloat :=
  flat_map
    (fun call => match call with Call_onStats tps => [tps] | _ => [] end)
    listener.

(** * Properties *)

(** ** Fixed-width arithmetic *)

Module FixedWidthFacts.

Lemma pow2_double (w : Z) : 0 < w -> 2 ^ w = 2 * 2 ^ (w - 1).
Proof.
  intros Hw. replace w with (Z.succ (w - 1)) at 1 by lia.
  apply Z.pow_succ_r. lia.
Qed.

Lemma wrap_small (w z : Z) :
  0 < w -> - 2 ^ (w - 1) <= z < 2 ^ (w - 1) -> wrap w z = z.
Proof.
  intros Hw Hz. unfold wrap.
  rewrite Z.mod_small; [lia|].
  rewrite (pow2_double w Hw). lia.
Qed.

Lemma wrap_mod (w z : Z) : 0 < w -> wrap w z mod 2 ^ w = z mod 2 ^ w.
Proof.
  intros Hw. unfold wrap.
  rewrite Zminus_mod_idemp_l. f_equal. lia.
Qed.

Lemma wrap_congr (w a b : Z) :
  0 < w -> a mod 2 ^ w = b mod 2 ^ w -> wrap w a = wrap w b.
Proof.
  intros Hw Hab. unfold wrap.
  rewrite (Z.add_mod a), (Z.add_mod b), Hab by (apply Z.pow_nonzero; lia).
  reflexivity.
Qed.

Lemma wrap_idem (w z : Z) : 0 < w -> wrap w (wrap w z) = wrap w z.
Proof.
  intros Hw. apply wrap_congr; [exact Hw | apply wrap_mod, Hw].
Qed.

Lemma wrap32_small (z : Z) : int32_min <= z <= int32_max -> wrap32 z = z.
Proof.
  unfold int32_min, int32_max, wrap32. intros Hz.
  apply wrap_small; [lia|]. change (32 - 1) with 31. lia.
Qed.

Lemma wrap64_small (z : Z) : int64_min <= z <= int64_max -> wrap64 z = z.
Proof.
  unfold int64_min, int64_max, wrap64. intros Hz.
  apply wrap_small; [lia|]. change (64 - 1) with 63. lia.
Qed.

(** Narrowing a 64-bit value to 32 bits forgets the 64-bit reduction. *)
Lemma wrap64_mod32 (z : Z) : wrap64 z mod 2 ^ 32 = z mod 2 ^ 32.
Proof.
  assert (Hdiv : (2 ^ 32 | 2 ^ 64)) by (exists (2 ^ 32); reflexivity).
  rewrite <- (Z.mod_mod_divide (wrap64 z) _ _ Hdiv).
  unfold wrap64. rewrite wrap_mod by lia.
  apply Z.mod_mod_divide, Hdiv.
Qed.

Lemma wrap32_wrap64 (z : Z) : wrap32 (wrap64 z) = wrap32 z.
Proof.
  apply wrap_congr; [lia | apply wrap64_mod32].
Qed.

Lemma wrap32_mul_l (a b : Z) : wrap32 (wrap32 a * b) = wrap32 (a * b).
Proof.
  assert (Hnz : 2 ^ 32 <> 0) by (apply Z.pow_nonzero; lia).
  apply wrap_congr; [lia|].
  rewrite Z.mul_mod by exact Hnz.
  unfold wrap32. rewrite wrap_mod by lia.
  rewrite <- Z.mul_mod by exact Hnz. reflexivity.
Qed.

End FixedWidthFacts.
Import FixedWidthFacts.

(** ** The value codec *)

Section CodecFacts.
Context `{JniConstants} `{JavaSide} `{NativeRuntime}.

Lemma numel_step_wrapped (numel dim : Z) :
  wrap32 (JEValue.numel_step numel dim) = JEValue.numel_step numel dim.
Proof.
  unfold JEValue.numel_step, wrap32. apply wrap_idem. lia.
Qed.

Lemma fold_left_mul_init (dims : list Z) :
  forall a, fold_left Z.mul dims a = a * fold_left Z.mul dims 1.
Proof.
  induction dims as [|dim dims IH]; intros a; cbn [fold_left].
  - lia.
  - rewrite IH, (IH (1 * dim)). lia.
Qed.

Lemma fold_numel_step (dims : list Z) :
  forall numel, wrap32 numel = numel ->
    fold_left JEValue.numel_step dims numel
    = wrap32 (numel * fold_left Z.mul dims 1).
Proof.
  induction dims as [|dim dims IH]; intros numel Hnumel; cbn [fold_left].
  - rewrite Z.mul_1_r. symmetry. exact Hnumel.
  - rewrite IH by apply numel_step_wrapped.
    unfold JEValue.numel_step. rewrite wrap32_wrap64, wrap32_mul_l.
    f_equal. rewrite (fold_left_mul_init dims (1 * dim)). lia.
Qed.

Lemma element_count_rev (shape : list Z) :
  fold_left Z.mul (rev shape) 1 = element_count shape.
Proof.
  unfold element_count.
  induction shape as [|dim shape IH]; cbn [rev fold_right].
  - reflexivity.
  - rewrite fold_left_app. cbn [fold_left]. rewrite IH. lia.
Qed.

(** The count the code computes is the declared count reduced to 32 bits. *)
Lemma numel_of_wrap32 (shapeArr : list Z) :
  JEValue.numel_of shapeArr = wrap32 (element_count shapeArr).
Proof.
  unfold JEValue.numel_of.
  rewrite fold_numel_step by (apply wrap32_small; unfold int32_min, int32_max; lia).
  rewrite Z.mul_1_l, element_count_rev. reflexivity.
Qed.

Lemma numel_of_exact (shapeArr : list Z) :
  int32_min <= element_count shapeArr <= int32_max ->
  JEValue.numel_of shapeArr = element_count shapeArr.
Proof.
  intros Hrange. rewrite numel_of_wrap32. apply wrap32_small, Hrange.
Qed.

(** C5 (amended). For every managed tensor whose declared element count
    (the product of its dimension sizes, 1 for rank zero) fits a 32-bit
    signed integer and differs from the capacity of its data buffer,
    managed to native conversion throws and produces no native tensor view:
    when the dtype code of the tensor is in the dtype table, the
    shape/buffer inconsistency error reporting both counts; when it is not,
    the unknown-dtype error, which is checked first. *)
Theorem JEValueToTensorImpl_count_mismatch
    (jevalue : JEValueObject) (jtensor : JTensor) :
  mTypeCode jevalue = JEValue.kTypeCodeTensor ->
  mData jevalue = JTensorObject jtensor ->
  int32_min <= element_count (shape jtensor) <= int32_max ->
  element_count (shape jtensor) <> buffer_capacity (getRawDataBuffer jtensor) ->
  JEValue.JEValueToTensorImpl jevalue =
    match java_dtype_to_scalar_type (dtypeJniCode jtensor) with
    | Some _ =>
        Throws
          (mkJavaException gJavaLangIllegalArgumentException
             "Tensor dimensions(elements number:%d inconsistent with buffer capacity(%d)"
             [ArgInt (element_count (shape jtensor));
              ArgInt (buffer_capacity (getRawDataBuffer jtensor))])
    | None =>
        Throws
          (mkJavaException gJavaLangIllegalArgumentException
             "Unknown Tensor jdtype %d" [ArgInt (dtypeJniCode jtensor)])
    end.
Proof.
  intros Hcode Hdata Hrange Hdiff.
  unfold JEValue.JEValueToTensorImpl, JEValue.toTensor.
  rewrite Hcode, Z.eqb_refl, Hdata. cbn [bind].
  destruct (java_dtype_to_scalar_type (dtypeJniCode jtensor)) as [st|];
    [|reflexivity].
  rewrite (numel_of_exact _ Hrange).
  destruct (Z.eqb_spec (buffer_capacity (getRawDataBuffer jtensor))
              (element_count (shape jtensor))) as [Heq|Hne].
  - exfalso. apply Hdiff. symmetry. exact Heq.
  - reflexivity.
Qed.

(** C8. For every native tagged value whose tag is none of Tensor, Int,
    Double, Bool or String, native to managed conversion produces no managed
    value: it throws the unsupported-kind error, whose argument is the
    numeric tag. *)
Theorem newJEValueFromEValue_unsupported (evalue : EValue) :
  supported (tag evalue) = false ->
  JEValue.newJEValueFromEValue evalue =
    Throws
      (mkJavaException gJavaLangIllegalArgumentException
         "Unsupported EValue type: %d" [ArgInt (tag_code (tag evalue))]).
Proof.
  destruct evalue; cbn [tag supported]; intros Htag;
    try discriminate Htag; reflexivity.
Qed.

End CodecFacts.

(** C5, as stated, fails: the element count 2 differs from the capacity 3,
    yet the error thrown is the unknown-dtype error, not the shape/buffer
    inconsistency error. *)
Lemma JEValueToTensorImpl_unknown_dtype_first :
  element_count (shape Sample.jtensor_unknown_dtype)
    <> buffer_capacity (getRawDataBuffer Sample.jtensor_unknown_dtype)
  /\ @JEValue.JEValueToTensorImpl Sample.constants
       (JEValue.from_Tensor Sample.jtensor_unknown_dtype)
     = Throws
         (mkJavaException gJavaLangIllegalArgumentException
            "Unknown Tensor jdtype %d" [ArgInt 99])
  /\ @JEValue.JEValueToTensorImpl Sample.constants
       (JEValue.from_Tensor Sample.jtensor_unknown_dtype)
     <> Throws
          (mkJavaException gJavaLangIllegalArgumentException
             "Tensor dimensions(elements number:%d inconsistent with buffer capacity(%d)"
             [ArgInt 2; ArgInt 3]).
Proof.
  split; [|split].
  - vm_compute. discriminate.
  - reflexivity.
  - vm_compute. discriminate.
Qed.

Lemma JEValueToTensorImpl_count_mismatch_witness :
  @JEValue.JEValueToTensorImpl Sample.constants
    (JEValue.from_Tensor Sample.jtensor_short_shape)
  = Throws
      (mkJavaException gJavaLangIllegalArgumentException
         "Tensor dimensions(elements number:%d inconsistent with buffer capacity(%d)"
         [ArgInt 2; ArgInt 3]).
Proof.
  apply (@JEValueToTensorImpl_count_mismatch Sample.constants
           (JEValue.from_Tensor Sample.jtensor_short_shape) Sample.jtensor_short_shape).
  - reflexivity.
  - reflexivity.
  - vm_compute. split; discriminate.
  - vm_compute. discriminate.
Defined.

(** Beyond 32 bits the check compares the count reduced to an [int]: a
    shape declaring 2^32 elements passes against a buffer of capacity 0. *)
Lemma JEValueToTensorImpl_count_reduced :
  element_count (shape Sample.jtensor_wide_shape) = 2 ^ 32
  /\ @JEValue.JEValueToTensorImpl Sample.constants
       (JEValue.from_Tensor Sample.jtensor_wide_shape)
     = Return (mkManagedTensor 4096 [65536; 65536] 6).
Proof.
  split; reflexivity.
Qed.

Lemma newJEValueFromEValue_unsupported_witness :
  @JEValue.newJEValueFromEValue Sample.constants Sample.java Sample.runtime
    (EValue_ListInt [1; 2])
  = Throws
      (mkJavaException gJavaLangIllegalArgumentException
         "Unsupported EValue type: %d" [ArgInt 8]).
Proof.
  apply (@newJEValueFromEValue_unsupported
           Sample.constants Sample.java Sample.runtime (EValue_ListInt [1; 2])).
  reflexivity.
Defined.

(** ** The method invoker *)

Section InvokerFacts.
Context `{JniConstants} `{JavaSide} `{NativeRuntime}.

Lemma input_loop_app (l1 l2 : list JEValueObject) :
  forall st,
    ExecuTorchJni.input_loop (l1 ++ l2) st
    = bind (ExecuTorchJni.input_loop l1 st) (ExecuTorchJni.input_loop l2).
Proof.
  induction l1 as [|jevalue l1 IH]; intros st; cbn [app ExecuTorchJni.input_loop].
  - reflexivity.
  - destruct (ExecuTorchJni.input_loop_body st jevalue) as [st'|e]; cbn [bind].
    + apply IH.
    + reflexivity.
Qed.

(** An input whose type code is none of Tensor, Int, Double and Bool leaves
    both vectors as they are. *)
Lemma input_loop_body_skip (st : ExecuTorchJni.Inputs) (jevalue : JEValueObject) :
  mTypeCode jevalue <> JEValue.kTypeCodeTensor ->
  mTypeCode jevalue <> JEValue.kTypeCodeInt ->
  mTypeCode jevalue <> JEValue.kTypeCodeDouble ->
  mTypeCode jevalue <> JEValue.kTypeCodeBool ->
  ExecuTorchJni.input_loop_body st jevalue = Return st.
Proof.
  intros Ht Hi Hd Hb. destruct st as [evalues managed_tensors].
  unfold ExecuTorchJni.input_loop_body.
  apply Z.eqb_neq in Ht, Hi, Hd, Hb.
  rewrite Ht, Hi, Hd, Hb. reflexivity.
Qed.

Lemma input_loop_skip (l1 l2 : list JEValueObject) (jevalue : JEValueObject) :
  (forall st, ExecuTorchJni.input_loop_body st jevalue = Return st) ->
  forall st,
    ExecuTorchJni.input_loop (l1 ++ jevalue :: l2) st
    = ExecuTorchJni.input_loop (l1 ++ l2) st.
Proof.
  intros Hskip st. rewrite !input_loop_app.
  destruct (ExecuTorchJni.input_loop l1 st) as [st'|e]; cbn [bind].
  - cbn [ExecuTorchJni.input_loop]. rewrite Hskip. reflexivity.
  - reflexivity.
Qed.

Lemma execute_method_skip (l1 l2 : list JEValueObject) (jevalue : JEValueObject) :
  (forall st, ExecuTorchJni.input_loop_body st jevalue = Return st) ->
  forall module_ method,
    ExecuTorchJni.execute_method module_ method (l1 ++ jevalue :: l2)
    = ExecuTorchJni.execute_method module_ method (l1 ++ l2).
Proof.
  intros Hskip module_ method. unfold ExecuTorchJni.execute_method.
  rewrite (input_loop_skip l1 l2 jevalue Hskip). reflexivity.
Qed.

Lemma recognized_false (typeCode : Z) :
  recognized typeCode = false ->
  typeCode <> JEValue.kTypeCodeTensor /\ typeCode <> JEValue.kTypeCodeString
  /\ typeCode <> JEValue.kTypeCodeDouble /\ typeCode <> JEValue.kTypeCodeInt
  /\ typeCode <> JEValue.kTypeCodeBool.
Proof.
  unfold recognized. cbn [existsb]. intros Hrec.
  repeat (apply orb_false_elim in Hrec; destruct Hrec as [?%Z.eqb_neq Hrec]).
  repeat split; assumption.
Qed.

Lemma input_loop_body_extend (st : ExecuTorchJni.Inputs) (jevalue : JEValueObject) :
  ExecuTorchJni.input_loop_body st jevalue
  = bind (ExecuTorchJni.input_loop_body ([], []) jevalue) (extend st).
Proof.
  destruct st as [evalues managed_tensors].
  unfold ExecuTorchJni.input_loop_body, extend.
  destruct (mTypeCode jevalue =? JEValue.kTypeCodeTensor).
  - destruct (JEValue.JEValueToTensorImpl jevalue) as [mt|e];
      cbn [bind fst snd app]; [|reflexivity].
    rewrite last_last. reflexivity.
  - destruct (mTypeCode jevalue =? JEValue.kTypeCodeInt);
      [cbn [bind fst snd app]; rewrite app_nil_r; reflexivity|].
    destruct (mTypeCode jevalue =? JEValue.kTypeCodeDouble);
      [cbn [bind fst snd app]; rewrite app_nil_r; reflexivity|].
    destruct (mTypeCode jevalue =? JEValue.kTypeCodeBool);
      [cbn [bind fst snd app]; rewrite app_nil_r; reflexivity|].
    cbn [bind fst snd]. rewrite !app_nil_r. reflexivity.
Qed.

Lemma input_loop_extend (jinputs : list JEValueObject) :
  forall st,
    ExecuTorchJni.input_loop jinputs st
    = bind (ExecuTorchJni.input_loop jinputs ([], [])) (extend st).
Proof.
  induction jinputs as [|jevalue jinputs IH]; intros [evalues managed_tensors];
    cbn [ExecuTorchJni.input_loop].
  - unfold extend. cbn [bind fst snd]. rewrite !app_nil_r. reflexivity.
  - rewrite (input_loop_body_extend (evalues, managed_tensors)).
    destruct (ExecuTorchJni.input_loop_body ([], []) jevalue) as [[a b]|e];
      cbn [bind]; [|reflexivity].
    unfold extend at 1. cbn [bind fst snd].
    rewrite IH, (IH (a, b)).
    destruct (ExecuTorchJni.input_loop jinputs ([], [])) as [[c d]|e];
      cbn [bind]; [|reflexivity].
    unfold extend. cbn [bind fst snd]. rewrite !app_assoc. reflexivity.
Qed.

(** The values decoded from [l1 ++ l2] are those decoded from [l1] followed
    by those decoded from [l2]. *)
Lemma input_loop_in_order (l1 l2 : list JEValueObject) (st : ExecuTorchJni.Inputs) :
  ExecuTorchJni.input_loop (l1 ++ l2) ([], []) = Return st ->
  exists st1 st2,
    ExecuTorchJni.input_loop l1 ([], []) = Return st1
    /\ ExecuTorchJni.input_loop l2 ([], []) = Return st2
    /\ fst st = fst st1 ++ fst st2.
Proof.
  rewrite input_loop_app.
  destruct (ExecuTorchJni.input_loop l1 ([], [])) as [st1|e]; cbn [bind];
    [|discriminate].
  rewrite input_loop_extend.
  destruct (ExecuTorchJni.input_loop l2 ([], [])) as [st2|e]; cbn [bind];
    [|discriminate].
  unfold extend. intros [= <-]. exists st1, st2. auto.
Qed.

(** C1 (the code departs from it). Whatever payload a managed input of
    type code Int, Double or Bool holds, the native value [execute_method]
    appends for it is built from the type code itself, read a second time
    through [typeCodeField]: the integer 4, the double 3.0 and the boolean
    true. The payload is never read, so a managed long 42 yields the native
    integer 4. *)
Theorem input_loop_body_scalar_reads_type_code
    (evalues : list EValue) (managed_tensors : list ManagedTensor)
    (payload : JObject) :
  ExecuTorchJni.input_loop_body (evalues, managed_tensors)
    (mkJEValue JEValue.kTypeCodeInt payload)
  = Return (evalues ++ [EValue_Int 4], managed_tensors)
  /\ ExecuTorchJni.input_loop_body (evalues, managed_tensors)
       (mkJEValue JEValue.kTypeCodeDouble payload)
     = Return (evalues ++ [EValue_Double (double_of_Z 3)], managed_tensors)
  /\ ExecuTorchJni.input_loop_body (evalues, managed_tensors)
       (mkJEValue JEValue.kTypeCodeBool payload)
     = Return (evalues ++ [EValue_Bool true], managed_tensors)
  /\ ExecuTorchJni.input_loop [Sample.jevalue_42] ([], [])
     = Return ([EValue_Int 4], [])
  /\ EValue_Int 4 <> EValue_Int 42.
Proof.
  repeat split; try reflexivity. discriminate.
Qed.

(** C6. A managed input whose type code is none of the five recognized
    ones raises no error and appends no native value; the call behaves as
    if the input were absent, and the native values decoded from the inputs
    before it and after it follow each other in input order. *)
Theorem execute_method_skips_unrecognized
    (l1 l2 : list JEValueObject) (jevalue : JEValueObject) :
  recognized (mTypeCode jevalue) = false ->
  (forall st, ExecuTorchJni.input_loop_body st jevalue = Return st)
  /\ (forall st,
        ExecuTorchJni.input_loop (l1 ++ jevalue :: l2) st
        = ExecuTorchJni.input_loop (l1 ++ l2) st)
  /\ (forall module_ method,
        ExecuTorchJni.execute_method module_ method (l1 ++ jevalue :: l2)
        = ExecuTorchJni.execute_method module_ method (l1 ++ l2))
  /\ (forall st,
        ExecuTorchJni.input_loop (l1 ++ jevalue :: l2) ([], []) = Return st ->
        exists st1 st2,
          ExecuTorchJni.input_loop l1 ([], []) = Return st1
          /\ ExecuTorchJni.input_loop l2 ([], []) = Return st2
          /\ fst st = fst st1 ++ fst st2).
Proof.
  intros Hrec. apply recognized_false in Hrec.
  destruct Hrec as (Ht & _ & Hd & Hi & Hb).
  assert (Hskip : forall st, ExecuTorchJni.input_loop_body st jevalue = Return st)
    by (intros st; apply input_loop_body_skip; assumption).
  split; [exact Hskip|]. split; [|split].
  - apply input_loop_skip, Hskip.
  - apply execute_method_skip, Hskip.
  - intros st Hst. rewrite (input_loop_skip l1 l2 jevalue Hskip) in Hst.
    apply input_loop_in_order, Hst.
Qed.

(** C10. A managed input of type code String raises no error and appends
    no native value: there is no String case in the loop, so the input is
    dropped like one of an unrecognized type code, and the values decoded
    from the inputs after it directly follow those decoded from the inputs
    before it. *)
Theorem execute_method_drops_string
    (l1 l2 : list JEValueObject) (jevalue : JEValueObject) :
  mTypeCode jevalue = JEValue.kTypeCodeString ->
  (forall st, ExecuTorchJni.input_loop_body st jevalue = Return st)
  /\ (forall module_ method,
        ExecuTorchJni.execute_method module_ method (l1 ++ jevalue :: l2)
        = ExecuTorchJni.execute_method module_ method (l1 ++ l2))
  /\ (forall st,
        ExecuTorchJni.input_loop (l1 ++ jevalue :: l2) ([], []) = Return st ->
        exists st1 st2,
          ExecuTorchJni.input_loop l1 ([], []) = Return st1
          /\ ExecuTorchJni.input_loop l2 ([], []) = Return st2
          /\ fst st = fst st1 ++ fst st2)
  /\ (forall other st,
        recognized (mTypeCode other) = false ->
        ExecuTorchJni.input_loop_body st jevalue
        = ExecuTorchJni.input_loop_body st other).
Proof.
  intros Hcode.
  assert (Hskip : forall st, ExecuTorchJni.input_loop_body st jevalue = Return st).
  { intros st. apply input_loop_body_skip; rewrite Hcode; discriminate. }
  split; [exact Hskip|]. split; [|split].
  - apply execute_method_skip, Hskip.
  - intros st Hst. rewrite (input_loop_skip l1 l2 jevalue Hskip) in Hst.
    apply input_loop_in_order, Hst.
  - intros other st Hrec. apply recognized_false in Hrec.
    destruct Hrec as (Ht & _ & Hd & Hi & Hb).
    rewrite Hskip. symmetry. apply input_loop_body_skip; assumption.
Qed.

(** C7. When the inputs decode and the dispatch of the native module
    answers a non-success status, be it for an unknown method name,
    [execute_method] throws one exception whose arguments are the method
    name and the numeric status, and returns no output values; [forward]
    does so under the name "forward" and [execute] under the name given. *)
Theorem execute_method_dispatch_failure
    (module_ module' : ETModule) (method : string)
    (jinputs : list JEValueObject) (st : ExecuTorchJni.Inputs) (status : Z) :
  ExecuTorchJni.input_loop jinputs ([], []) = Return st ->
  Module_execute module_ method (fst st) = (module', Result_error status) ->
  ExecuTorchJni.execute_method module_ method jinputs
  = (module',
     Throws
       (mkJavaException "java/lang/Exception"
          "Execution of method %s failed with status 0x%x"
          [ArgStr method; ArgInt status]))
  /\ ExecuTorchJni.execute module_ method jinputs
     = ExecuTorchJni.execute_method module_ method jinputs
  /\ ExecuTorchJni.forward module_ jinputs
     = ExecuTorchJni.execute_method module_ "forward" jinputs
  /\ returns (snd (ExecuTorchJni.execute_method module_ method jinputs)) = false.
Proof.
  intros Hin Hexec.
  assert (Hcall : ExecuTorchJni.execute_method module_ method jinputs
                  = (module',
                     Throws
                       (mkJavaException "java/lang/Exception"
                          "Execution of method %s failed with status 0x%x"
                          [ArgStr method; ArgInt status]))).
  { unfold ExecuTorchJni.execute_method. rewrite Hin.
    destruct st as [evalues managed_tensors]. cbn [fst] in Hexec.
    rewrite Hexec. reflexivity. }
  split; [exact Hcall|]. split; [reflexivity|]. split; [reflexivity|].
  rewrite Hcall. reflexivity.
Qed.

(** X13. What does round-trip: a native tensor, provided the two dtype tables
    agree on its scalar type, the Java factory keeps the dtype code, the
    shape and the address and exposes a buffer whose capacity is the element
    count, and the sizes and their product fit 32 bits. *)
Lemma decode_encode_tensor (tensor : Tensor) (jdtype : Z) :
  scalar_type_to_java_dtype (scalar_type tensor) = Some jdtype ->
  java_dtype_to_scalar_type jdtype = Some (scalar_type tensor) ->
  nativeNewTensor
    (TensorHybrid.wrapBytes (data_ptr tensor) (Tensor_nbytes tensor))
    (sizes tensor) jdtype
  = mkJTensor jdtype (sizes tensor)
      (mkJBuffer (data_ptr tensor) (element_count (sizes tensor))) ->
  Forall (fun dim => int32_min <= dim <= int32_max) (sizes tensor) ->
  int32_min <= element_count (sizes tensor) <= int32_max ->
  decode_encode (EValue_Tensor tensor) = Return [EValue_Tensor tensor].
Proof.
  intros Hto Hfrom Hjava Hsizes Hcount.
  unfold decode_encode, JEValue.newJEValueFromEValue,
    TensorHybrid.newJTensorFromTensor.
  rewrite Hto. cbn [bind]. rewrite Hjava.
  cbn [ExecuTorchJni.input_loop ExecuTorchJni.input_loop_body
       JEValue.from_Tensor mTypeCode].
  rewrite Z.eqb_refl.
  unfold JEValue.JEValueToTensorImpl, JEValue.toTensor.
  cbn [JEValue.from_Tensor mTypeCode mData dtypeJniCode shape getRawDataBuffer
       buffer_capacity buffer_address bind].
  rewrite Z.eqb_refl. cbn [bind]. rewrite Hfrom.
  rewrite (numel_of_exact _ Hcount), Z.eqb_refl.
  cbn [negb bind app last fst get_aliasing_tensor mt_dtype mt_sizes mt_data].
  assert (Hmap : map wrap32 (sizes tensor) = sizes tensor).
  { clear - Hsizes. induction Hsizes as [|dim dims Hdim _ IH]; cbn [map].
    - reflexivity.
    - rewrite (wrap32_small _ Hdim), IH. reflexivity. }
  rewrite Hmap. destruct tensor; reflexivity.
Qed.

(** Scalars and strings through the input branches of [execute_method].
    Encoding a native scalar and handing the managed object back as an
    input is not the identity: every native integer comes back as 4, every
    double as 3.0, every boolean as true, and a string does not come back
    at all. Decoding a managed long 42 and encoding the result yields a
    managed long 4. *)
Lemma decode_encode_scalar_not_identity
    (i : Z) (d : double) (b : bool) (s : string) :
  decode_encode (EValue_Int i) = Return [EValue_Int 4]
  /\ decode_encode (EValue_Double d) = Return [EValue_Double (double_of_Z 3)]
  /\ decode_encode (EValue_Bool b) = Return [EValue_Bool true]
  /\ decode_encode (EValue_String s) = Return []
  /\ decode_encode (EValue_Int 42) <> Return [EValue_Int 42]
  /\ encode_decode Sample.jevalue_42 = Return [JEValue.from_long 4]
  /\ JEValue.from_long 4 <> Sample.jevalue_42.
Proof.
  repeat split; try reflexivity; discriminate.
Qed.

End InvokerFacts.

Lemma execute_method_skips_unrecognized_witness :
  @ExecuTorchJni.input_loop Sample.constants
    ([Sample.jevalue_42] ++ Sample.jevalue_code_9 :: [Sample.jevalue_tensor])
    ([], [])
  = @ExecuTorchJni.input_loop Sample.constants
      ([Sample.jevalue_42] ++ [Sample.jevalue_tensor]) ([], []).
Proof.
  refine (proj1 (proj2
    (@execute_method_skips_unrecognized
       Sample.constants Sample.java Sample.runtime
       [Sample.jevalue_42] [Sample.jevalue_tensor] Sample.jevalue_code_9 _))
    ([], [])).
  reflexivity.
Defined.

Lemma execute_method_drops_string_witness :
  @ExecuTorchJni.execute_method Sample.constants Sample.java Sample.runtime
    tt "forward"
    ([Sample.jevalue_42] ++ Sample.jevalue_string :: [Sample.jevalue_tensor])
  = @ExecuTorchJni.execute_method Sample.constants Sample.java Sample.runtime
      tt "forward" ([Sample.jevalue_42] ++ [Sample.jevalue_tensor]).
Proof.
  refine (proj1 (proj2
    (@execute_method_drops_string
       Sample.constants Sample.java Sample.runtime
       [Sample.jevalue_42] [Sample.jevalue_tensor] Sample.jevalue_string _))
    tt "forward").
  reflexivity.
Defined.

Lemma execute_method_dispatch_failure_witness :
  @ExecuTorchJni.execute_method Sample.constants Sample.java Sample.runtime
    tt "nope" [Sample.jevalue_42]
  = (tt,
     Throws
       (mkJavaException "java/lang/Exception"
          "Execution of method %s failed with status 0x%x"
          [ArgStr "nope"; ArgInt 18])).
Proof.
  refine (proj1
    (@execute_method_dispatch_failure
       Sample.constants Sample.java Sample.runtime
       tt tt "nope" [Sample.jevalue_42] ([EValue_Int 4], []) 18 _ _));
    reflexivity.
Defined.

(** ** The callback relay and the generation wrapper *)

Lemma double_div_zero_not_finite (x : double) :
  is_finite (double_div x (S754_zero false)) = false.
Proof.
  destruct x; reflexivity.
Qed.

Lemma double_mul_not_finite (x y : double) :
  is_finite x = false -> is_finite (double_mul x y) = false.
Proof.
  destruct x; cbn [is_finite]; intros Hx; try discriminate Hx;
    destruct y; reflexivity.
Qed.

Lemma float_of_double_not_finite (x : double) :
  is_finite x = false -> is_finite (float_of_double x) = false.
Proof.
  destruct x; cbn [is_finite]; intros Hx; try discriminate Hx; reflexivity.
Qed.

(** C4. [onStats] hands the listener one value: the generated token count
    divided by the evaluation time [inference_end_ms - prompt_eval_end_ms]
    and multiplied by the scaling constant, computed in binary64 and
    narrowed to binary32. For 50 tokens in 2500 ms with the constant 1000
    the value is the binary32 number 20.0. No guard protects the division:
    for an evaluation time of zero the listener is still called, with an
    infinity or a NaN. *)
Theorem onStats_tokens_per_second (result : Stats) (listener : list ListenerCall) :
  ExecuTorchLlamaCallbackJni.onStats result listener
  = listener ++
    [Call_onStats
       (float_of_double
          (double_mul
             (double_div
                (double_of_Z (num_generated_tokens result))
                (double_of_Z
                   (wrap64 (inference_end_ms result - prompt_eval_end_ms result))))
             (double_of_Z (SCALING_FACTOR_UNITS_PER_SECOND result))))]
  /\ (num_generated_tokens result = 50 ->
      inference_end_ms result - prompt_eval_end_ms result = 2500 ->
      SCALING_FACTOR_UNITS_PER_SECOND result = 1000 ->
      ExecuTorchLlamaCallbackJni.onStats result listener
      = listener ++ [Call_onStats float_20])
  /\ (inference_end_ms result - prompt_eval_end_ms result = 0 ->
      exists tps,
        ExecuTorchLlamaCallbackJni.onStats result listener
        = listener ++ [Call_onStats tps]
        /\ is_finite tps = false).
Proof.
  split; [reflexivity|]. split.
  - intros Htokens Htime Hscale.
    unfold ExecuTorchLlamaCallbackJni.onStats.
    rewrite Htokens, Htime, Hscale. reflexivity.
  - intros Htime. eexists. split; [reflexivity|].
    rewrite Htime.
    apply float_of_double_not_finite, double_mul_not_finite.
    apply double_div_zero_not_finite.
Qed.

Lemma onStats_tokens_per_second_witness :
  ExecuTorchLlamaCallbackJni.onStats Sample.stats [] = [Call_onStats float_20]
  /\ exists tps,
       ExecuTorchLlamaCallbackJni.onStats (mkStats 5 5 50 1000) []
       = [Call_onStats tps]
       /\ is_finite tps = false.
Proof.
  split.
  - apply (proj1 (proj2 (onStats_tokens_per_second Sample.stats [])));
      reflexivity.
  - apply (proj2 (proj2 (onStats_tokens_per_second (mkStats 5 5 50 1000) []))).
    reflexivity.
Defined.

(** C3 (the code departs from it). The integer [generate] returns is the
    constant 0, whatever status the generation call of the native runner
    answers: the status is discarded. With the sample runner, whose
    generation fails with status 18, [generate] still returns 0. *)
Theorem generate_returns_zero `{NativeRuntime}
    (runner_ : Runner) (prompt : string) (callback : list ListenerCall) :
  snd (ExecuTorchLlamaJni.generate runner_ prompt callback) = 0
  /\ snd (@Runner_generate Sample.runtime tt "Once upon a time" 128) = 18
  /\ snd (@ExecuTorchLlamaJni.generate Sample.runtime tt "Once upon a time" [])
     = 0.
Proof.
  split; [|split; reflexivity].
  unfold ExecuTorchLlamaJni.generate.
  destruct (Runner_generate runner_ prompt 128) as [[runner' events] status].
  reflexivity.
Qed.

(** ** Library load *)

(** C2 (the code departs from it). Once [JNI_OnLoad] has drained the
    registry, the method table holds the four entry points of the module
    class and nothing else: the registry holds [ExecuTorchJni::registerNatives]
    alone, [ExecuTorchLlamaJni::registerNatives] is never added to it, and so
    generate, stop and load are not registered. *)
Theorem JNI_OnLoad_registers_module_class_only :
  method_table process_loaded = ExecuTorchJni.registerNatives []
  /\ map nm_name (method_table process_loaded)
     = ["initHybrid"; "forward"; "execute"; "loadMethod"]
  /\ List.length
       (jni_init_function_registry (static_initialization process_start))
     = 1%nat
  /\ registered "generate" (method_table process_loaded) = false
  /\ registered "stop" (method_table process_loaded) = false
  /\ registered "load" (method_table process_loaded) = false
  /\ registered "generate" (ExecuTorchLlamaJni.registerNatives []) = true.
Proof.
  repeat split.
Qed.

(** * Further properties of the code *)

(** ** The value codec *)

Section CodecProperties.
Context `{JniConstants} `{JavaSide} `{NativeRuntime}.

Lemma wrap32_range (z : Z) : int32_min <= wrap32 z <= int32_max.
Proof.
  unfold wrap32, wrap, int32_min, int32_max.
  change (32 - 1) with 31.
  pose proof (Z.mod_pos_bound (z + 2 ^ 31) (2 ^ 32) eq_refl) as Hmod.
  change (2 ^ 32) with (2 * 2 ^ 31) in Hmod |- *. lia.
Qed.

(** X1. Native to managed conversion returns exactly for the five supported
    tags, a tensor moreover needing its scalar type in the dtype table. *)
Theorem newJEValueFromEValue_returns_iff (evalue : EValue) :
  returns (JEValue.newJEValueFromEValue evalue) = true <->
  supported (tag evalue) = true
  /\ (forall t, evalue = EValue_Tensor t ->
        scalar_type_to_java_dtype (scalar_type t) <> None).
Proof.
  destruct evalue; cbn [JEValue.newJEValueFromEValue tag supported returns
                         throwNewJavaException];
    try (split; [intros Hr; discriminate Hr | intros [Hs _]; discriminate Hs]);
    try (split; [intros _; split; [reflexivity | intros t' Ht'; discriminate Ht']
                | reflexivity]).
  unfold TensorHybrid.newJTensorFromTensor.
  destruct (scalar_type_to_java_dtype (scalar_type t)) as [jdtype|] eqn:Hdtype;
    cbn [bind returns throwNewJavaException].
  - split; [|reflexivity]. intros _. split; [reflexivity|].
    intros t' [= <-]. rewrite Hdtype. discriminate.
  - split; [intros Hr; discriminate Hr|].
    intros [_ Hknown]. exfalso. apply (Hknown t eq_refl). exact Hdtype.
Qed.

(** X2. Native to managed conversion loses nothing on scalars and strings: two
    native values encoded to the same managed object, other than a tensor,
    are equal. *)
Theorem newJEValueFromEValue_injective
    (evalue1 evalue2 : EValue) (jevalue : JEValueObject) :
  JEValue.newJEValueFromEValue evalue1 = Return jevalue ->
  JEValue.newJEValueFromEValue evalue2 = Return jevalue ->
  mTypeCode jevalue <> JEValue.kTypeCodeTensor ->
  evalue1 = evalue2.
Proof.
  intros H1' H2' Hcode.
  destruct evalue1; cbn [JEValue.newJEValueFromEValue throwNewJavaException] in H1';
    try discriminate H1';
    try (destruct (TensorHybrid.newJTensorFromTensor t) as [jt|e];
         cbn [bind] in H1'; [|discriminate H1'];
         injection H1' as <-; exfalso; apply Hcode; reflexivity);
    injection H1' as <-;
    (destruct evalue2;
     cbn [JEValue.newJEValueFromEValue throwNewJavaException] in H2';
     try discriminate H2';
     try (destruct (TensorHybrid.newJTensorFromTensor t) as [jt|e];
          cbn [bind] in H2'; discriminate H2');
     injection H2' as ->; reflexivity).
Qed.

Lemma JEValueToTensorImpl_returns_inv
    (jevalue : JEValueObject) (jtensor : JTensor) (mt : ManagedTensor) :
  JEValue.JEValueToTensorImpl jevalue = Return mt ->
  mData jevalue = JTensorObject jtensor ->
  exists dtype,
    java_dtype_to_scalar_type (dtypeJniCode jtensor) = Some dtype
    /\ buffer_capacity (getRawDataBuffer jtensor)
       = wrap32 (element_count (shape jtensor))
    /\ mt = mkManagedTensor (buffer_address (getRawDataBuffer jtensor))
              (map wrap32 (shape jtensor)) dtype.
Proof.
  intros Hret Hdata. revert Hret.
  unfold JEValue.JEValueToTensorImpl, JEValue.toTensor.
  destruct (JEValue.kTypeCodeTensor =? mTypeCode jevalue);
    [|intros Hr; discriminate Hr].
  rewrite Hdata. cbn [bind]. rewrite numel_of_wrap32.
  destruct (java_dtype_to_scalar_type (dtypeJniCode jtensor)) as [dtype|];
    [|intros Hr; discriminate Hr].
  destruct (Z.eqb_spec (buffer_capacity (getRawDataBuffer jtensor))
              (wrap32 (element_count (shape jtensor)))) as [Hcap|Hcap];
    cbn [negb]; [|intros Hr; discriminate Hr].
  intros [= <-]. exists dtype. auto.
Qed.

(** X3. Managed to native conversion of a tensor returns exactly when the type
    code is Tensor, the payload is a tensor, its dtype code is in the dtype
    table and the buffer capacity equals the declared element count reduced
    to 32 bits; the view then aliases the buffer, with every dimension
    reduced to 32 bits. *)
Theorem JEValueToTensorImpl_returns_iff
    (jevalue : JEValueObject) (mt : ManagedTensor) :
  JEValue.JEValueToTensorImpl jevalue = Return mt <->
  mTypeCode jevalue = JEValue.kTypeCodeTensor
  /\ exists jtensor dtype,
       mData jevalue = JTensorObject jtensor
       /\ java_dtype_to_scalar_type (dtypeJniCode jtensor) = Some dtype
       /\ buffer_capacity (getRawDataBuffer jtensor)
          = wrap32 (element_count (shape jtensor))
       /\ mt = mkManagedTensor (buffer_address (getRawDataBuffer jtensor))
                 (map wrap32 (shape jtensor)) dtype.
Proof.
  unfold JEValue.JEValueToTensorImpl, JEValue.toTensor.
  destruct (Z.eqb_spec JEValue.kTypeCodeTensor (mTypeCode jevalue)) as [Hcode|Hcode].
  - destruct (mData jevalue) as [|jtensor| | | |] eqn:Hdata;
      cbn [bind throwNewJavaException];
      try (split; [intros Hr; discriminate Hr
                  | intros (_ & jt & dt & Hjt & _); discriminate Hjt]).
    rewrite numel_of_wrap32.
    destruct (java_dtype_to_scalar_type (dtypeJniCode jtensor)) as [dtype|] eqn:Hdtype.
    + destruct (Z.eqb_spec (buffer_capacity (getRawDataBuffer jtensor))
                  (wrap32 (element_count (shape jtensor)))) as [Hcap|Hcap];
        cbn [negb].
      * split.
        -- intros [= <-]. split; [symmetry; exact Hcode|].
           exists jtensor, dtype. auto.
        -- intros (_ & jt & dt & [= <-] & Hdt & _ & ->).
           rewrite Hdtype in Hdt. injection Hdt as <-. reflexivity.
      * split; [intros Hr; discriminate Hr|].
        intros (_ & jt & dt & [= <-] & _ & Hcap' & _). contradiction.
    + split; [intros Hr; discriminate Hr|].
      intros (_ & jt & dt & [= <-] & Hdt & _). rewrite Hdtype in Hdt.
      discriminate Hdt.
  - cbn [throwNewJavaException].
    split; [intros Hr; discriminate Hr|].
    intros [Hcode' _]. exfalso. apply Hcode. symmetry. exact Hcode'.
Qed.

Lemma element_count_zero (shape : list Z) :
  In 0 shape -> element_count shape = 0.
Proof.
  unfold element_count.
  induction shape as [|dim shape IH]; cbn [In fold_right]; intros Hin.
  - contradiction.
  - destruct Hin as [->|Hin]; [reflexivity|]. rewrite (IH Hin). lia.
Qed.

(** X4. Edge shapes. A tensor with a dimension of size zero is converted when
    its buffer holds no element, and a tensor of rank zero when its buffer
    holds exactly one; with any other capacity the inconsistency error is
    thrown, reporting 0 (respectively 1) and the capacity. *)
Theorem JEValueToTensorImpl_edge_shapes
    (jevalue : JEValueObject) (jtensor : JTensor) (dtype : ScalarType) :
  mTypeCode jevalue = JEValue.kTypeCodeTensor ->
  mData jevalue = JTensorObject jtensor ->
  java_dtype_to_scalar_type (dtypeJniCode jtensor) = Some dtype ->
  (In 0 (shape jtensor) ->
   JEValue.JEValueToTensorImpl jevalue =
     if buffer_capacity (getRawDataBuffer jtensor) =? 0 then
       Return (mkManagedTensor (buffer_address (getRawDataBuffer jtensor))
                 (map wrap32 (shape jtensor)) dtype)
     else
       Throws
         (mkJavaException gJavaLangIllegalArgumentException
            "Tensor dimensions(elements number:%d inconsistent with buffer capacity(%d)"
            [ArgInt 0; ArgInt (buffer_capacity (getRawDataBuffer jtensor))]))
  /\ (shape jtensor = [] ->
      JEValue.JEValueToTensorImpl jevalue =
        if buffer_capacity (getRawDataBuffer jtensor) =? 1 then
          Return (mkManagedTensor (buffer_address (getRawDataBuffer jtensor))
                    [] dtype)
        else
          Throws
            (mkJavaException gJavaLangIllegalArgumentException
               "Tensor dimensions(elements number:%d inconsistent with buffer capacity(%d)"
               [ArgInt 1; ArgInt (buffer_capacity (getRawDataBuffer jtensor))])).
Proof.
  intros Hcode Hdata Hdtype.
  unfold JEValue.JEValueToTensorImpl, JEValue.toTensor.
  rewrite Hcode, Z.eqb_refl, Hdata. cbn [bind]. rewrite Hdtype.
  split.
  - intros Hzero.
    rewrite numel_of_wrap32, (element_count_zero _ Hzero).
    change (wrap32 0) with 0.
    destruct (buffer_capacity (getRawDataBuffer jtensor) =? 0); reflexivity.
  - intros ->. change (JEValue.numel_of []) with 1. cbn [map].
    destruct (buffer_capacity (getRawDataBuffer jtensor) =? 1); reflexivity.
Qed.

(** X5. The view produced for a managed tensor has the rank of its shape, all
    its sizes fit 32 bits, and they are the declared dimensions whenever
    those fit 32 bits. *)
Theorem JEValueToTensorImpl_sizes
    (jevalue : JEValueObject) (jtensor : JTensor) (mt : ManagedTensor) :
  JEValue.JEValueToTensorImpl jevalue = Return mt ->
  mData jevalue = JTensorObject jtensor ->
  List.length (mt_sizes mt) = List.length (shape jtensor)
  /\ Forall (fun size => int32_min <= size <= int32_max) (mt_sizes mt)
  /\ (Forall (fun dim => int32_min <= dim <= int32_max) (shape jtensor) ->
      mt_sizes mt = shape jtensor)
  /\ mt_data mt = buffer_address (getRawDataBuffer jtensor).
Proof.
  intros Hret Hdata.
  destruct (JEValueToTensorImpl_returns_inv _ _ _ Hret Hdata)
    as (dtype & _ & _ & ->).
  cbn [mt_sizes mt_data].
  split; [apply length_map|]. split; [|split; [|reflexivity]].
  - apply Forall_forall. intros size Hin. apply in_map_iff in Hin.
    destruct Hin as (dim & <- & _). apply wrap32_range.
  - intros Hfit. clear Hret Hdata.
    induction Hfit as [|dim dims Hdim _ IH]; cbn [map].
    + reflexivity.
    + rewrite (wrap32_small _ Hdim), IH. reflexivity.
Qed.

End CodecProperties.

Lemma newJEValueFromEValue_injective_witness :
  EValue_Int 7 = EValue_Int 7.
Proof.
  apply (@newJEValueFromEValue_injective
           Sample.constants Sample.java Sample.runtime
           (EValue_Int 7) (EValue_Int 7) (JEValue.from_long 7)).
  - reflexivity.
  - reflexivity.
  - vm_compute. discriminate.
Defined.

Lemma JEValueToTensorImpl_edge_shapes_witness :
  @JEValue.JEValueToTensorImpl Sample.constants
    (JEValue.from_Tensor (mkJTensor 6 [4; 0; 2] (mkJBuffer 4096 0)))
  = Return (mkManagedTensor 4096 [4; 0; 2] 6)
  /\ @JEValue.JEValueToTensorImpl Sample.constants
       (JEValue.from_Tensor (mkJTensor 6 [] (mkJBuffer 4096 1)))
     = Return (mkManagedTensor 4096 [] 6).
Proof.
  split.
  - apply (proj1 (@JEValueToTensorImpl_edge_shapes Sample.constants
             (JEValue.from_Tensor (mkJTensor 6 [4; 0; 2] (mkJBuffer 4096 0)))
             (mkJTensor 6 [4; 0; 2] (mkJBuffer 4096 0)) 6
             eq_refl eq_refl eq_refl)).
    cbn [shape In]. right. left. reflexivity.
  - apply (proj2 (@JEValueToTensorImpl_edge_shapes Sample.constants
             (JEValue.from_Tensor (mkJTensor 6 [] (mkJBuffer 4096 1)))
             (mkJTensor 6 [] (mkJBuffer 4096 1)) 6
             eq_refl eq_refl eq_refl)).
    reflexivity.
Defined.

Lemma JEValueToTensorImpl_sizes_witness :
  List.length [2; 3] = List.length [2; 3]
  /\ Forall (fun size => int32_min <= size <= int32_max) [2; 3]
  /\ (Forall (fun dim => int32_min <= dim <= int32_max) [2; 3] ->
      [2; 3] = [2; 3])
  /\ 4096 = 4096.
Proof.
  apply (@JEValueToTensorImpl_sizes Sample.constants
           Sample.jevalue_tensor (mkJTensor 6 [2; 3] (mkJBuffer 4096 6))
           (mkManagedTensor 4096 [2; 3] 6)).
  - reflexivity.
  - reflexivity.
Defined.

(** ** The method invoker *)

Section InvokerProperties.
Context `{JniConstants} `{JavaSide} `{NativeRuntime}.

Lemma tensors_of_app (a b : list EValue) :
  tensors_of (a ++ b) = tensors_of a ++ tensors_of b.
Proof.
  unfold tensors_of. apply flat_map_app.
Qed.

(** What one turn of the loop does to the two vectors, when it returns. *)
Lemma input_loop_body_returns
    (evalues evalues' : list EValue)
    (managed_tensors managed_tensors' : list ManagedTensor)
    (jevalue : JEValueObject) :
  ExecuTorchJni.input_loop_body (evalues, managed_tensors) jevalue
  = Return (evalues', managed_tensors') ->
  (is_tensor_input jevalue = true
   /\ exists mt,
        JEValue.JEValueToTensorImpl jevalue = Return mt
        /\ evalues' = evalues ++ [EValue_Tensor (get_aliasing_tensor mt)]
        /\ managed_tensors' = managed_tensors ++ [mt])
  \/ (is_tensor_input jevalue = false
      /\ is_converted_input jevalue = true
      /\ managed_tensors' = managed_tensors
      /\ exists evalue,
           evalues' = evalues ++ [evalue] /\ tensors_of [evalue] = [])
  \/ (is_tensor_input jevalue = false
      /\ is_converted_input jevalue = false
      /\ managed_tensors' = managed_tensors
      /\ evalues' = evalues).
Proof.
  unfold ExecuTorchJni.input_loop_body, is_tensor_input, is_converted_input,
    converted. cbn [existsb].
  destruct (mTypeCode jevalue =? JEValue.kTypeCodeTensor).
  - destruct (JEValue.JEValueToTensorImpl jevalue) as [mt|e]; cbn [bind];
      [|intros Hr; discriminate Hr].
    rewrite last_last. intros [= <- <-]. left. split; [reflexivity|].
    exists mt. auto.
  - cbn [orb].
    destruct (mTypeCode jevalue =? JEValue.kTypeCodeInt);
      [intros [= <- <-]; right; left; repeat split; eexists; split; reflexivity|].
    destruct (mTypeCode jevalue =? JEValue.kTypeCodeDouble);
      [intros [= <- <-]; right; left; repeat split; eexists; split; reflexivity|].
    destruct (mTypeCode jevalue =? JEValue.kTypeCodeBool);
      [intros [= <- <-]; right; left; repeat split; eexists; split; reflexivity|].
    intros [= <- <-]. right. right. repeat split.
Qed.

Lemma input_loop_invariant (jinputs : list JEValueObject) :
  forall evalues managed_tensors evalues' managed_tensors',
    ExecuTorchJni.input_loop jinputs (evalues, managed_tensors)
    = Return (evalues', managed_tensors') ->
    (List.length evalues'
     = List.length evalues + List.length (filter is_converted_input jinputs))%nat
    /\ (List.length managed_tensors'
        = List.length managed_tensors
          + List.length (filter is_tensor_input jinputs))%nat
    /\ (tensors_of evalues = map get_aliasing_tensor managed_tensors ->
        tensors_of evalues' = map get_aliasing_tensor managed_tensors').
Proof.
  induction jinputs as [|jevalue jinputs IH];
    intros evalues managed_tensors evalues' managed_tensors';
    cbn [ExecuTorchJni.input_loop filter].
  - intros [= <- <-]. cbn [List.length]. rewrite !Nat.add_0_r. auto.
  - destruct (ExecuTorchJni.input_loop_body (evalues, managed_tensors) jevalue)
      as [[evalues1 managed_tensors1]|e] eqn:Hbody; cbn [bind];
      [|intros Hr; discriminate Hr].
    intros Hloop. apply IH in Hloop. destruct Hloop as (Hlen & Hmts & Halias).
    apply input_loop_body_returns in Hbody.
    destruct Hbody as [(Ht & mt & _ & -> & ->)
                      |[(Ht & Hc & -> & evalue & -> & Hnot)
                       |(Ht & Hc & -> & ->)]].
    + assert (Hc : is_converted_input jevalue = true).
      { unfold is_converted_input, converted, is_tensor_input in *.
        cbn [existsb]. rewrite Ht. reflexivity. }
      rewrite Ht, Hc. rewrite !length_app in Hlen, Hmts. cbn [List.length] in *.
      split; [lia|]. split; [lia|].
      intros Hinv. apply Halias.
      rewrite tensors_of_app, map_app, Hinv. reflexivity.
    + rewrite Ht, Hc. rewrite !length_app in Hlen. cbn [List.length] in *.
      split; [lia|]. split; [lia|].
      intros Hinv. apply Halias.
      rewrite tensors_of_app, Hnot, app_nil_r. exact Hinv.
    + rewrite Ht, Hc. auto.
Qed.

(** X6. The native arguments handed to the module are as many as the inputs of
    type code Tensor, Int, Double or Bool, the tensor views kept alive as
    many as the inputs of type code Tensor. *)
Theorem input_loop_lengths
    (jinputs : list JEValueObject) (st : ExecuTorchJni.Inputs) :
  ExecuTorchJni.input_loop jinputs ([], []) = Return st ->
  List.length (fst st) = List.length (filter is_converted_input jinputs)
  /\ List.length (snd st) = List.length (filter is_tensor_input jinputs)
  /\ (List.length (fst st) <= List.length jinputs)%nat.
Proof.
  destruct st as [evalues managed_tensors]. intros Hloop.
  apply input_loop_invariant in Hloop. destruct Hloop as (Hlen & Hmts & _).
  cbn [fst snd List.length] in *.
  pose proof (filter_length_le is_converted_input jinputs). lia.
Qed.

(** X7. Every tensor argument handed to the module aliases a view that is kept
    in [managed_tensors]: the tensors among the arguments are, in order, the
    aliasing tensors of the views. *)
Theorem input_loop_tensors_alias_views
    (jinputs : list JEValueObject) (st : ExecuTorchJni.Inputs) :
  ExecuTorchJni.input_loop jinputs ([], []) = Return st ->
  tensors_of (fst st) = map get_aliasing_tensor (snd st).
Proof.
  destruct st as [evalues managed_tensors]. intros Hloop.
  apply input_loop_invariant in Hloop. destruct Hloop as (_ & _ & Halias).
  apply Halias. reflexivity.
Qed.

(** X8. Input conversion stops at the first input that throws: the inputs
    after it are not looked at, the native module is not called and is left
    as it was, and the exception of that input is the outcome of the call. *)
Theorem execute_method_input_failure
    (l1 l2 : list JEValueObject) (jevalue : JEValueObject)
    (st : ExecuTorchJni.Inputs) (e : JavaException)
    (module_ : ETModule) (method : string) :
  ExecuTorchJni.input_loop l1 ([], []) = Return st ->
  ExecuTorchJni.input_loop_body st jevalue = Throws e ->
  ExecuTorchJni.execute_method module_ method (l1 ++ jevalue :: l2)
  = (module_, Throws e).
Proof.
  intros Hl1 Hbody. unfold ExecuTorchJni.execute_method.
  rewrite input_loop_app, Hl1. cbn [bind ExecuTorchJni.input_loop].
  rewrite Hbody. reflexivity.
Qed.

Lemma JEValueToTensorImpl_tensor_code_errors
    (jevalue : JEValueObject) (e : JavaException) :
  mTypeCode jevalue = JEValue.kTypeCodeTensor ->
  JEValue.JEValueToTensorImpl jevalue = Throws e ->
  exn_format e <> "Unknown EValue typeCode %d".
Proof.
  intros Hcode. unfold JEValue.JEValueToTensorImpl, JEValue.toTensor.
  rewrite Hcode, Z.eqb_refl.
  destruct (mData jevalue) as [|jtensor| | | |];
    cbn [bind throwNewJavaException];
    try (intros [= <-]; cbn [exn_format]; discriminate).
  destruct (java_dtype_to_scalar_type (dtypeJniCode jtensor));
    [|intros [= <-]; cbn [exn_format]; discriminate].
  destruct (negb _); [|intros Hr; discriminate Hr].
  intros [= <-]. cbn [exn_format]. discriminate.
Qed.

(** X9. Input conversion can throw on an input of type code Tensor only, and
    never with the unknown-type-code error of [JEValueToTensorImpl], which
    is called for that type code alone: when no input has type code Tensor
    the conversion returns and keeps no tensor view. *)
Theorem input_loop_throws_on_tensor_only
    (jinputs : list JEValueObject) (st : ExecuTorchJni.Inputs) :
  (forall e,
      ExecuTorchJni.input_loop jinputs st = Throws e ->
      exn_format e <> "Unknown EValue typeCode %d"
      /\ exists jevalue,
           In jevalue jinputs /\ is_tensor_input jevalue = true
           /\ JEValue.JEValueToTensorImpl jevalue = Throws e)
  /\ (forallb (fun jevalue => negb (is_tensor_input jevalue)) jinputs = true ->
      exists evalues,
        ExecuTorchJni.input_loop jinputs st = Return (evalues, snd st)).
Proof.
  split.
  - revert st. induction jinputs as [|jevalue jinputs IH]; intros st e;
      cbn [ExecuTorchJni.input_loop].
    + intros Hr. discriminate Hr.
    + destruct (ExecuTorchJni.input_loop_body st jevalue) as [st'|e'] eqn:Hbody;
        cbn [bind].
      * intros Hloop. destruct (IH st' e Hloop) as (Hfmt & j & Hin & Hj).
        split; [exact Hfmt|]. exists j. split; [right; exact Hin|exact Hj].
      * intros [= ->]. destruct st as [evalues managed_tensors].
        unfold ExecuTorchJni.input_loop_body in Hbody.
        destruct (Z.eqb_spec (mTypeCode jevalue) JEValue.kTypeCodeTensor)
          as [Hcode|Hcode].
        -- destruct (JEValue.JEValueToTensorImpl jevalue) as [mt|e'] eqn:Himpl;
             cbn [bind] in Hbody; [discriminate Hbody|].
           injection Hbody as ->.
           split; [exact (JEValueToTensorImpl_tensor_code_errors _ _ Hcode Himpl)|].
           exists jevalue. split; [left; reflexivity|]. split; [|exact Himpl].
           unfold is_tensor_input. apply Z.eqb_eq, Hcode.
        -- destruct (mTypeCode jevalue =? JEValue.kTypeCodeInt);
             [discriminate Hbody|].
           destruct (mTypeCode jevalue =? JEValue.kTypeCodeDouble);
             [discriminate Hbody|].
           destruct (mTypeCode jevalue =? JEValue.kTypeCodeBool);
             discriminate Hbody.
  - revert st. induction jinputs as [|jevalue jinputs IH];
      intros [evalues managed_tensors]; cbn [forallb ExecuTorchJni.input_loop snd].
    + intros _. exists evalues. reflexivity.
    + intros Hall. apply andb_true_iff in Hall. destruct Hall as [Hj Hall].
      apply negb_true_iff in Hj. unfold is_tensor_input in Hj.
      unfold ExecuTorchJni.input_loop_body. rewrite Hj.
      destruct (mTypeCode jevalue =? JEValue.kTypeCodeInt);
        [cbn [bind]; apply (IH (_, managed_tensors) Hall)|].
      destruct (mTypeCode jevalue =? JEValue.kTypeCodeDouble);
        [cbn [bind]; apply (IH (_, managed_tensors) Hall)|].
      destruct (mTypeCode jevalue =? JEValue.kTypeCodeBool);
        cbn [bind]; apply (IH (_, managed_tensors) Hall).
Qed.

Lemma output_loop_returns_iff (values : list EValue) :
  forall jresult,
    ExecuTorchJni.output_loop values = Return jresult <->
    Forall2 (fun evalue jevalue =>
               JEValue.newJEValueFromEValue evalue = Return jevalue)
      values jresult.
Proof.
  induction values as [|evalue values IH]; intros jresult;
    cbn [ExecuTorchJni.output_loop].
  - split.
    + intros [= <-]. constructor.
    + intros Hall. inversion Hall. reflexivity.
  - destruct (JEValue.newJEValueFromEValue evalue) as [jevalue|e] eqn:Hhead;
      cbn [bind].
    + destruct (ExecuTorchJni.output_loop values) as [jrest|e] eqn:Hrest;
        cbn [bind].
      * split.
        -- intros [= <-]. constructor; [exact Hhead|]. apply IH. reflexivity.
        -- intros Hall. inversion Hall as [|? j ? jr Hj Hjr]; subst.
           rewrite Hhead in Hj. injection Hj as <-.
           apply IH in Hjr. injection Hjr as <-. reflexivity.
      * split; [intros Hr; discriminate Hr|].
        intros Hall. inversion Hall as [|? j ? jr Hj Hjr]; subst.
        apply IH in Hjr. discriminate Hjr.
    + split; [intros Hr; discriminate Hr|].
      intros Hall. inversion Hall as [|? j ? jr Hj Hjr]; subst.
      rewrite Hhead in Hj. discriminate Hj.
Qed.

Lemma output_loop_first_failure (l1 l2 : list EValue) (evalue : EValue)
    (e : JavaException) :
  forallb (fun v => returns (JEValue.newJEValueFromEValue v)) l1 = true ->
  JEValue.newJEValueFromEValue evalue = Throws e ->
  ExecuTorchJni.output_loop (l1 ++ evalue :: l2) = Throws e.
Proof.
  intros Hl1 Hfail.
  induction l1 as [|v l1 IH]; cbn [app ExecuTorchJni.output_loop].
  - rewrite Hfail. reflexivity.
  - cbn [forallb] in Hl1. apply andb_true_iff in Hl1. destruct Hl1 as [Hv Hl1].
    destruct (JEValue.newJEValueFromEValue v) as [j|e']; cbn [bind returns] in *;
      [|discriminate Hv].
    rewrite (IH Hl1). reflexivity.
Qed.

(** X10. When the inputs decode and the native method succeeds, the call returns
    exactly when every value the method produced can be encoded; the managed
    results are then as many as the native values, each the encoding of the
    value at its index. *)
Theorem execute_method_success
    (module_ module' : ETModule) (method : string)
    (jinputs : list JEValueObject) (st : ExecuTorchJni.Inputs)
    (values : list EValue) (jresult : list JEValueObject) :
  ExecuTorchJni.input_loop jinputs ([], []) = Return st ->
  Module_execute module_ method (fst st) = (module', Result_value values) ->
  (ExecuTorchJni.execute_method module_ method jinputs
   = (module', Return jresult) <->
   Forall2 (fun evalue jevalue =>
              JEValue.newJEValueFromEValue evalue = Return jevalue)
     values jresult)
  /\ (ExecuTorchJni.execute_method module_ method jinputs
      = (module', Return jresult) ->
      List.length jresult = List.length values).
Proof.
  intros Hin Hexec.
  assert (Hcall : ExecuTorchJni.execute_method module_ method jinputs
                  = (module', ExecuTorchJni.output_loop values)).
  { unfold ExecuTorchJni.execute_method. rewrite Hin.
    destruct st as [evalues managed_tensors]. cbn [fst] in Hexec.
    rewrite Hexec. reflexivity. }
  rewrite Hcall.
  assert (Hiff : (module', ExecuTorchJni.output_loop values)
                 = (module', Return jresult) <->
                 Forall2 (fun evalue jevalue =>
                            JEValue.newJEValueFromEValue evalue = Return jevalue)
                   values jresult).
  { rewrite <- output_loop_returns_iff. split.
    - intros [= ->]. reflexivity.
    - intros ->. reflexivity. }
  split; [exact Hiff|].
  intros Hret. apply Hiff in Hret. symmetry. exact (Forall2_length Hret).
Qed.

(** X11. When the native method succeeds but one of the values it produced
    cannot be encoded, the call throws the exception of the first such
    value and returns no result, although the method has run. *)
Theorem execute_method_output_failure
    (module_ module' : ETModule) (method : string)
    (jinputs : list JEValueObject) (st : ExecuTorchJni.Inputs)
    (l1 l2 : list EValue) (evalue : EValue) (e : JavaException) :
  ExecuTorchJni.input_loop jinputs ([], []) = Return st ->
  Module_execute module_ method (fst st)
  = (module', Result_value (l1 ++ evalue :: l2)) ->
  forallb (fun v => returns (JEValue.newJEValueFromEValue v)) l1 = true ->
  JEValue.newJEValueFromEValue evalue = Throws e ->
  ExecuTorchJni.execute_method module_ method jinputs = (module', Throws e).
Proof.
  intros Hin Hexec Hl1 Hfail.
  unfold ExecuTorchJni.execute_method. rewrite Hin.
  destruct st as [evalues managed_tensors]. cbn [fst] in Hexec.
  rewrite Hexec, (output_loop_first_failure l1 l2 evalue e Hl1 Hfail).
  reflexivity.
Qed.

(** X12. The integer [load_method] and [load] hand to the managed caller is 0
    exactly when the status of the native call is [Ok] (0), and is the
    status itself when that fits a [jint]: the narrowing turns no failure
    into success. *)
Theorem load_status_returned
    (module_ module' : ETModule) (methodName : string)
    (runner_ runner' : Runner) (error : Z) :
  0 <= error < 2 ^ 32 ->
  Module_load_method module_ methodName = (module', error) ->
  Runner_load runner_ = (runner', error) ->
  ExecuTorchJni.load_method module_ methodName = (module', wrap32 error)
  /\ ExecuTorchLlamaJni.load runner_ = (runner', wrap32 error)
  /\ (wrap32 error = 0 <-> error = 0)
  /\ (error <= int32_max -> wrap32 error = error).
Proof.
  intros Hrange Hmodule Hrunner.
  unfold ExecuTorchJni.load_method, ExecuTorchLlamaJni.load.
  rewrite Hmodule, Hrunner.
  split; [reflexivity|]. split; [reflexivity|]. split.
  - split.
    + intros Hzero.
      pose proof (wrap_mod 32 error eq_refl) as Hmod.
      fold (wrap32 error) in Hmod. rewrite Hzero in Hmod.
      rewrite Z.mod_0_l in Hmod by (apply Z.pow_nonzero; lia).
      rewrite Z.mod_small in Hmod by exact Hrange. symmetry. exact Hmod.
    + intros ->. reflexivity.
  - intros Hmax. apply wrap32_small. unfold int32_min. lia.
Qed.

End InvokerProperties.

Lemma input_loop_lengths_witness :
  List.length
    (fst ([EValue_Int 4; EValue_Tensor (mkTensor 6 [2; 3] 4096)],
          [mkManagedTensor 4096 [2; 3] 6]))
  = List.length
      (filter is_converted_input
         [Sample.jevalue_42; Sample.jevalue_string; Sample.jevalue_tensor;
          Sample.jevalue_code_9])
  /\ List.length
       (snd ([EValue_Int 4; EValue_Tensor (mkTensor 6 [2; 3] 4096)],
             [mkManagedTensor 4096 [2; 3] 6]))
     = List.length
         (filter is_tensor_input
            [Sample.jevalue_42; Sample.jevalue_string; Sample.jevalue_tensor;
             Sample.jevalue_code_9])
  /\ le
       (List.length
          (fst ([EValue_Int 4; EValue_Tensor (mkTensor 6 [2; 3] 4096)],
                [mkManagedTensor 4096 [2; 3] 6])))
       (List.length
          [Sample.jevalue_42; Sample.jevalue_string; Sample.jevalue_tensor;
           Sample.jevalue_code_9]).
Proof.
  apply (@input_loop_lengths Sample.constants
           [Sample.jevalue_42; Sample.jevalue_string; Sample.jevalue_tensor;
            Sample.jevalue_code_9]).
  reflexivity.
Defined.

Lemma input_loop_tensors_alias_views_witness :
  tensors_of
    (fst ([EValue_Int 4; EValue_Tensor (mkTensor 6 [2; 3] 4096)],
          [mkManagedTensor 4096 [2; 3] 6]))
  = map get_aliasing_tensor
      (snd ([EValue_Int 4; EValue_Tensor (mkTensor 6 [2; 3] 4096)],
            [mkManagedTensor 4096 [2; 3] 6])).
Proof.
  apply (@input_loop_tensors_alias_views Sample.constants
           [Sample.jevalue_42; Sample.jevalue_tensor]).
  reflexivity.
Defined.

Lemma execute_method_input_failure_witness :
  @ExecuTorchJni.execute_method Sample.constants Sample.java Sample.runtime
    tt "forward"
    ([Sample.jevalue_42]
       ++ JEValue.from_Tensor Sample.jtensor_short_shape
       :: [Sample.jevalue_string])
  = (tt,
     Throws
       (mkJavaException gJavaLangIllegalArgumentException
          "Tensor dimensions(elements number:%d inconsistent with buffer capacity(%d)"
          [ArgInt 2; ArgInt 3])).
Proof.
  apply (@execute_method_input_failure
           Sample.constants Sample.java Sample.runtime
           [Sample.jevalue_42] [Sample.jevalue_string]
           (JEValue.from_Tensor Sample.jtensor_short_shape)
           ([EValue_Int 4], [])).
  - reflexivity.
  - reflexivity.
Defined.

Lemma input_loop_throws_on_tensor_only_witness :
  exists evalues,
    @ExecuTorchJni.input_loop Sample.constants
      [Sample.jevalue_42; Sample.jevalue_string] ([], [])
    = Return (evalues, snd (([], []) : ExecuTorchJni.Inputs)).
Proof.
  apply (proj2 (@input_loop_throws_on_tensor_only Sample.constants
                  [Sample.jevalue_42; Sample.jevalue_string] ([], []))).
  reflexivity.
Defined.

Lemma execute_method_success_witness :
  List.length [JEValue.from_long 4] = List.length [EValue_Int 4].
Proof.
  apply (proj2 (@execute_method_success
                  Sample.constants Sample.java Sample.runtime
                  tt tt "forward" [Sample.jevalue_42] ([EValue_Int 4], [])
                  [EValue_Int 4] [JEValue.from_long 4] eq_refl eq_refl)).
  reflexivity.
Defined.

Lemma execute_method_output_failure_witness :
  @ExecuTorchJni.execute_method
    Sample.constants Sample.java Sample.runtime_with_none
    tt "forward" [Sample.jevalue_42]
  = (tt,
     Throws
       (mkJavaException gJavaLangIllegalArgumentException
          "Unsupported EValue type: %d" [ArgInt 0])).
Proof.
  apply (@execute_method_output_failure
           Sample.constants Sample.java Sample.runtime_with_none
           tt tt "forward" [Sample.jevalue_42] ([EValue_Int 4], [])
           [EValue_Int 1] [EValue_Int 2] EValue_None).
  - reflexivity.
  - reflexivity.
  - reflexivity.
  - reflexivity.
Defined.

Lemma load_status_returned_witness :
  @ExecuTorchJni.load_method Sample.runtime_with_none tt "forward" = (tt, wrap32 18)
  /\ @ExecuTorchLlamaJni.load Sample.runtime_with_none tt = (tt, wrap32 18)
  /\ (wrap32 18 = 0 <-> 18 = 0)
  /\ (18 <= int32_max -> wrap32 18 = 18).
Proof.
  apply (@load_status_returned Sample.runtime_with_none tt tt "forward" tt tt 18).
  - vm_compute. split; [discriminate | reflexivity].
  - reflexivity.
  - reflexivity.
Defined.

Lemma decode_encode_tensor_witness :
  @decode_encode Sample.constants Sample.java Sample.runtime
    (EValue_Tensor (mkTensor 6 [2; 3] 4096))
  = Return [EValue_Tensor (mkTensor 6 [2; 3] 4096)].
Proof.
  apply (@decode_encode_tensor Sample.constants Sample.java Sample.runtime
           (mkTensor 6 [2; 3] 4096) 6).
  - reflexivity.
  - reflexivity.
  - reflexivity.
  - repeat constructor; vm_compute; discriminate.
  - vm_compute. split; discriminate.
Defined.

(** ** The generation wrapper *)

Section RelayProperties.
Context `{NativeRuntime}.

Lemma relay_appends (listener : list ListenerCall) (ev : RunnerEvent) :
  ExecuTorchLlamaJni.relay listener ev
  = listener ++ ExecuTorchLlamaJni.relay [] ev.
Proof.
  destruct ev; reflexivity.
Qed.

Lemma fold_relay (events : list RunnerEvent) :
  forall listener,
    fold_left ExecuTorchLlamaJni.relay events listener
    = listener ++ flat_map (ExecuTorchLlamaJni.relay []) events.
Proof.
  induction events as [|ev events IH]; intros listener;
    cbn [fold_left flat_map].
  - rewrite app_nil_r. reflexivity.
  - rewrite IH, relay_appends, app_assoc. reflexivity.
Qed.

Lemma results_received_app (a b : list ListenerCall) :
  results_received (a ++ b) = results_received a ++ results_received b.
Proof.
  unfold results_received. apply flat_map_app.
Qed.

Lemma rates_received_app (a b : list ListenerCall) :
  rates_received (a ++ b) = rates_received a ++ rates_received b.
Proof.
  unfold rates_received. apply flat_map_app.
Qed.

Lemma relayed_events (events : list RunnerEvent) :
  results_received (flat_map (ExecuTorchLlamaJni.relay []) events)
  = tokens_of events
  /\ List.length (rates_received (flat_map (ExecuTorchLlamaJni.relay []) events))
     = List.length (stats_of events)
  /\ List.length (flat_map (ExecuTorchLlamaJni.relay []) events)
     = List.length events.
Proof.
  induction events as [|ev events (IHr & IHs & IHl)].
  - repeat split.
  - cbn [flat_map]. rewrite results_received_app, rates_received_app.
    rewrite !length_app, IHr, IHs, IHl.
    destruct ev; repeat split.
Qed.

(** X14. During one call of [generate] the listener receives one call per event
    the runner reports and no other: the texts passed to [onResult] are the
    tokens of the runner, unchanged and in order, [onStats] is called once
    per statistics event, and what the listener had received before stays
    in front. *)
Theorem generate_relays_in_order
    (runner_ runner' : Runner) (prompt : string)
    (callback : list ListenerCall) (events : list RunnerEvent) (status : Z) :
  Runner_generate runner_ prompt 128 = (runner', events, status) ->
  exists added,
    ExecuTorchLlamaJni.generate runner_ prompt callback
    = (runner', callback ++ added, 0)
    /\ results_received added = tokens_of events
    /\ List.length (rates_received added) = List.length (stats_of events)
    /\ List.length added = List.length events.
Proof.
  intros Hrun. exists (flat_map (ExecuTorchLlamaJni.relay []) events).
  split; [|apply relayed_events].
  unfold ExecuTorchLlamaJni.generate. rewrite Hrun, fold_relay. reflexivity.
Qed.

End RelayProperties.

Lemma generate_relays_in_order_witness :
  exists added,
    @ExecuTorchLlamaJni.generate Sample.runtime tt "Once upon a time" []
    = (tt, [] ++ added, 0)
    /\ results_received added
       = tokens_of
           [TokenEvent "Hello"; TokenEvent " world"; StatsEvent Sample.stats]
    /\ List.length (rates_received added)
       = List.length
           (stats_of
              [TokenEvent "Hello"; TokenEvent " world"; StatsEvent Sample.stats])
    /\ List.length added
       = List.length
           [TokenEvent "Hello"; TokenEvent " world"; StatsEvent Sample.stats].
Proof.
  apply (@generate_relays_in_order Sample.runtime tt tt "Once upon a time" []
           [TokenEvent "Hello"; TokenEvent " world"; StatsEvent Sample.stats] 18).
  reflexivity.
Defined.

(** X15. The constructor of the generation wrapper leaves the threadpool alone
    only when exactly one performant core is reported; otherwise it resets
    it to one thread less than the cores, and, the count being unsigned,
    to 4294967295 threads when no performant core is reported. *)
Theorem constructor_threadpool_size (cores threadpool : Z) :
  0 <= cores < 2 ^ 32 ->
  ExecuTorchLlamaJni.constructor_threadpool cores threadpool
  = if cores =? 1 then threadpool
    else if cores =? 0 then 4294967295
    else cores - 1.
Proof.
  intros Hrange.
  unfold ExecuTorchLlamaJni.constructor_threadpool,
    ExecuTorchLlamaJni.num_performant_cores.
  destruct (Z.eqb_spec cores 1) as [->|Hone]; [reflexivity|].
  destruct (Z.eqb_spec cores 0) as [->|Hzero]; [reflexivity|].
  rewrite Z.mod_small by lia.
  destruct (Z.ltb_spec 0 (cores - 1)); [reflexivity|lia].
Qed.

Lemma constructor_threadpool_size_witness :
  ExecuTorchLlamaJni.constructor_threadpool 0 4 = 4294967295.
Proof.
  apply (constructor_threadpool_size 0 4).
  vm_compute. split; [discriminate | reflexivity].
Defined.

(** ** Library load *)

(** X16. [JNI_OnLoad] runs the registered initialisers in the order of their
    registration, each on the table the earlier ones left: loading after
    one more registration is loading, then running the new initialiser. It
    answers the JNI version 1.6 and keeps the registry as it is. *)
Theorem JNI_OnLoad_after_register
    (f : MethodTable -> MethodTable) (p : Process) :
  method_table (fst (JNI_OnLoad (fst (register_jni_init_function f p))))
  = f (method_table (fst (JNI_OnLoad p)))
  /\ jni_init_function_registry (fst (JNI_OnLoad p))
     = jni_init_function_registry p
  /\ snd (JNI_OnLoad p) = JNI_VERSION_1_6
  /\ snd (register_jni_init_function f p) = 0.
Proof.
  unfold JNI_OnLoad, register_jni_init_function, initialize.
  cbn [fst snd jni_init_function_registry method_table].
  rewrite fold_left_app. repeat split.
Qed.

(** ** Round trip of the tensor codec *)

Section TensorCodec.
Context `{JniConstants} `{JavaSide} `{NativeRuntime}.




End TensorCodec.




